(** * Drawdown analysis of closed trades: scripts/analyze-prop-firm.py and
      scripts/analyze-prop-firm-v2.py

    The two scripts read the rows of a trade export, derive a net profit per
    trade and check two risk rules: the loss of one calendar day against a
    fixed share of the account size, and the lowest balance reached against a
    fixed floor.  They are two drafts of the same analysis; module [V1] embeds
    the first file and module [V2] the second, definition by definition.

    Conventions of the embedding:
    - a Python [float] is an exact rational (rounding, [inf] and [nan] are
      outside the model);
    - a raised exception is the [Raise] branch of [result]; the catch-all
      around the body of [analyze_csv] turns it into the [Error] output;
    - the lines printed by a run are represented by the values they show,
      gathered in a [Report];
    - the file is given as the rows [csv.DictReader] yields, a dict keyed by
      day is a [gmap] on text;
    - [datetime.strptime] and [float] applied to text belong to the Python
      runtime, not to the scripts: they are the two fields of [PyRuntime]. *)

From Stdlib Require Import QArith Qabs Lqa Ascii String.
From stdpp Require Import gmap strings list fin_maps sorting.

Open Scope string_scope.

(** ** Python runtime *)

(** Exceptions, with the text the catch-all prints; for [ValueError] the
    text of the usual message of [strptime] and of [float]. *)
Inductive exn :=
  | ValueError (msg : string)
  | KeyError (key : string).

Inductive result (A : Type) :=
  | Ok (a : A)
  | Raise (e : exn).
Arguments Ok {A} a.
Arguments Raise {A} e.

Definition bind {A B} (c : result A) (k : A -> result B) : result B :=
  match c with
  | Ok a => k a
  | Raise e => Raise e
  end.

Notation "x <- c1 ;; c2" := (bind c1 (fun x => c2))
  (at level 100, c1 at next level, right associativity).

(** A naive [datetime]; the format of the scripts has no fraction of a
    second and no zone. *)
Record datetime := mk_datetime {
  year : nat; month : nat; day : nat;
  hour : nat; minute : nat; second : nat
}.

Global Instance datetime_eq_dec : EqDecision datetime.
Proof. solve_decision. Defined.

(** [a < b] on [datetime]: field by field, most significant first. *)
Definition lex (c1 c2 : comparison) : comparison :=
  match c1 with
  | Eq => c2
  | _ => c1
  end.

Definition dt_compare (a b : datetime) : comparison :=
  lex (year a ?= year b)%nat
  (lex (month a ?= month b)%nat
  (lex (day a ?= day b)%nat
  (lex (hour a ?= hour b)%nat
  (lex (minute a ?= minute b)%nat
       (second a ?= second b)%nat)))).

Definition dt_ltb (a b : datetime) : bool :=
  match dt_compare a b with
  | Lt => true
  | _ => false
  end.

(** [a <= b], as the negation of [b < a]. *)
Definition dt_le (a b : datetime) : Prop := dt_ltb b a = false.

(** [datetime.strptime(s, "%d/%m/%Y %H:%M:%S")] and [float(s)] on text;
    [None] stands for the [ValueError] either raises on text it rejects. *)
Class PyRuntime := {
  strptime : string -> option datetime;
  float_of_str : string -> option Q
}.

(** A value read from a cell of [csv.DictReader]: text, or [None] when the
    line is shorter than the header. *)
Definition cell := option string.

(** [if not c]: [None] and the empty text are false. *)
Definition truthy (c : cell) : option string :=
  match c with
  | Some s => if decide (s = "") then None else Some s
  | None => None
  end.

(** [float(c or 0)] *)
Definition float_or_0 `{PyRuntime} (c : cell) : result Q :=
  match truthy c with
  | None => Ok 0%Q
  | Some s =>
      match float_of_str s with
      | Some q => Ok q
      | None => Raise (ValueError ("could not convert string to float: '" ++ s ++ "'"))
      end
  end.

(** [x < y] and [x > y] on floats. *)
Definition Qltb (x y : Q) : bool :=
  match (x ?= y)%Q with
  | Lt => true
  | _ => false
  end.

(** [sum(...)]: starts from 0 and adds from the left. *)
Definition py_sum (l : list Q) : Q := fold_left Qplus l 0%Q.

(** [sorted] and [list.sort] with a key.  Python's sort is stable and only
    uses [<] on keys; the result of a stable sort is unique, so insertion
    from the right stands for it: an element goes in front of the first one
    whose key is not smaller than its own. *)
Section Sort.
Context {A K : Type} (ltb : K -> K -> bool) (key : A -> K).

Fixpoint insert_by (x : A) (l : list A) : list A :=
  match l with
  | [] => [x]
  | y :: l' =>
      if ltb (key y) (key x) then y :: insert_by x l' else x :: y :: l'
  end.

Fixpoint py_sorted (l : list A) : list A :=
  match l with
  | [] => []
  | x :: l' => insert_by x (py_sorted l')
  end.

(** [a] may stand before [b]: the key of [b] is not smaller. *)
Definition key_le (a b : A) : Prop := ltb (key b) (key a) = false.
End Sort.

(** ** Rows and configuration *)

(** One row of the export, by column name.  The header is taken to hold
    the five columns the scripts read. *)
Record Row := mk_row {
  ID : cell;
  Close_Time : cell;
  Profit : cell;
  Commission : cell;
  Swap : cell
}.

(** The module constants of both files.  They are gathered in a record so
    that statements can range over configurations; [source_config] holds the
    values written in the files. *)
Record Config := mk_config {
  ACCOUNT_SIZE : Q;
  DAILY_DD_PERCENT : Q
}.

Definition source_config : Config :=
  {| ACCOUNT_SIZE := 5000; DAILY_DD_PERCENT := 4 |}.

(** [DAILY_LIMIT = ACCOUNT_SIZE * (DAILY_DD_PERCENT / 100)], line 8 *)
Definition DAILY_LIMIT (cfg : Config) : Q :=
  (ACCOUNT_SIZE cfg * (DAILY_DD_PERCENT cfg / 100))%Q.

(** [MAX_DD_LIMIT = ACCOUNT_SIZE * 0.08], inside [analyze_csv] *)
Definition MAX_DD_LIMIT (cfg : Config) : Q :=
  (ACCOUNT_SIZE cfg * 0.08)%Q.

(** The last decimal digit of a number, and a number written with two and
    with four digits. *)
Definition digit (n : nat) : string :=
  String (Ascii.ascii_of_nat (48 + n mod 10)) "".

Definition pad2 (n : nat) : string := digit (n / 10) ++ digit n.

Definition pad4 (n : nat) : string := pad2 (n / 100) ++ pad2 n.

(** [dt.strftime("%Y-%m-%d")], for the fields of a Python [datetime] (a
    year of at most four digits, written with four) *)
Definition strftime (dt : datetime) : string :=
  pad4 (year dt) ++ "-" ++ pad2 (month dt) ++ "-" ++ pad2 (day dt).

(** [row['ID'] == 'Total'] *)
Definition is_total (c : cell) : bool := bool_decide (c = Some "Total").

(** [d[k]] on a dict *)
Definition getitem {V} (d : gmap string V) (k : string) : result V :=
  match d !! k with
  | Some v => Ok v
  | None => Raise (KeyError k)
  end.

(** [d.keys()]; both files only ever sort them. *)
Definition keys {V} (d : gmap string V) : list string := (map_to_list d).*1.

(** [sorted(d.keys())] on text keys *)
Definition sorted_keys {V} (d : gmap string V) : list string :=
  py_sorted String.ltb id (keys d).

(** What a run of [analyze_csv] leaves on the terminal: the report, or the
    single line [Error: e] of the catch-all. *)
Inductive Output (R : Type) :=
  | Printed (r : R)
  | Error (e : exn).
Arguments Printed {R} r.
Arguments Error {R} e.

Definition try_except {R} (body : result R) : Output R :=
  match body with
  | Ok r => Printed r
  | Raise e => Error e
  end.

(** ** First file: scripts/analyze-prop-firm.py *)
Module V1.

Record Trade := mk_trade {
  id : cell;
  net_pnl : Q;
  time : string
}.

Record DayResult := mk_day {
  date : string;
  day_start_balance : Q;
  day_pnl : Q;
  n_trades : nat;
  day_loss : Q;
  is_breached : bool
}.

Record Report := mk_report {
  days : list DayResult;
  min_bal : Q;
  max_dd_used : Q;
  violation_found : bool
}.

Section WithRuntime.
Context `{PyRuntime}.

(** [parse_date], lines 13-20.  No handler here: text that [strptime]
    rejects raises. *)
Definition parse_date (date_str : string) : result string :=
  match strptime date_str with
  | Some dt => Ok (strftime dt)
  | None =>
      Raise (ValueError ("time data '" ++ date_str
                         ++ "' does not match format '%d/%m/%Y %H:%M:%S'"))
  end.

(** The body of [for row in reader], lines 29-54, on the dict built so
    far. *)
Definition read_row (trades_by_day : gmap string (list Trade)) (row : Row)
  : result (gmap string (list Trade)) :=
  if is_total (ID row) then Ok trades_by_day
  else
    match truthy (Close_Time row) with
    | None => Ok trades_by_day
    | Some close_time_str =>
        day_str <- parse_date close_time_str ;;
        profit <- float_or_0 (Profit row) ;;
        commission <- float_or_0 (Commission row) ;;
        swap <- float_or_0 (Swap row) ;;
        let net_pnl := (profit + commission + swap)%Q in
        let trades_by_day :=
          if decide (is_Some (trades_by_day !! day_str)) then trades_by_day
          else <[day_str := []]> trades_by_day in
        Ok (alter (fun l => (l ++ [mk_trade (ID row) net_pnl close_time_str])%list)
                  day_str trades_by_day)
    end.

Fixpoint read_rows (trades_by_day : gmap string (list Trade)) (rows : list Row)
  : result (gmap string (list Trade)) :=
  match rows with
  | [] => Ok trades_by_day
  | row :: rest =>
      trades_by_day <- read_row trades_by_day row ;;
      read_rows trades_by_day rest
  end.
End WithRuntime.

(** The loop "Analyze Days", lines 67-91; it carries [running_balance] and
    [violation_found] from day to day. *)
Fixpoint check_days (cfg : Config) (trades_by_day : gmap string (list Trade))
    (sorted_days : list string) (running_balance : Q) (violation_found : bool)
  : result (list DayResult * Q * bool) :=
  match sorted_days with
  | [] => Ok ([], running_balance, violation_found)
  | day :: rest =>
      day_trades <- getitem trades_by_day day ;;
      let day_pnl := py_sum (map net_pnl day_trades) in
      let day_start_balance := running_balance in
      let day_end_balance := (day_start_balance + day_pnl)%Q in
      let day_loss := if Qltb day_pnl 0 then Qabs day_pnl else 0%Q in
      let is_breached := Qltb (DAILY_LIMIT cfg) day_loss in
      let violation_found := if is_breached then true else violation_found in
      let running_balance := day_end_balance in
      out <- check_days cfg trades_by_day rest running_balance violation_found ;;
      let '(printed, running_balance, violation_found) := out in
      Ok (mk_day day day_start_balance day_pnl (length day_trades)
                 day_loss is_breached :: printed,
          running_balance, violation_found)
  end.

(** The loop "Re-simulating balance", lines 105-119: the inner loop over
    the trades of the day is empty ([pass]); the balance moves once a day,
    by the sum of the day. *)
Fixpoint max_dd_days (trades_by_day : gmap string (list Trade))
    (sorted_days : list string) (curr_bal min_bal : Q) : result (Q * Q) :=
  match sorted_days with
  | [] => Ok (curr_bal, min_bal)
  | day :: rest =>
      day_trades <- getitem trades_by_day day ;;
      let day_pnl := py_sum (map net_pnl day_trades) in
      let curr_bal := (curr_bal + day_pnl)%Q in
      let min_bal := if Qltb curr_bal min_bal then curr_bal else min_bal in
      max_dd_days trades_by_day rest curr_bal min_bal
  end.

Section WithRuntime.
Context `{PyRuntime}.

(** The body of the [try] block, lines 26-130.  The file sets
    [violation_found] but prints no verdict from it, and sets
    [lowest_equity], which it never reads. *)
Definition analysis (cfg : Config) (rows : list Row) : result Report :=
  trades_by_day <- read_rows ∅ rows ;;
  let sorted_days := sorted_keys trades_by_day in
  out <- check_days cfg trades_by_day sorted_days (ACCOUNT_SIZE cfg) false ;;
  let '(printed, running_balance, violation_found) := out in
  bals <- max_dd_days trades_by_day sorted_days (ACCOUNT_SIZE cfg) (ACCOUNT_SIZE cfg) ;;
  let '(curr_bal, min_bal) := bals in
  let max_dd_used := (ACCOUNT_SIZE cfg - min_bal)%Q in
  let violation_found :=
    if Qltb (MAX_DD_LIMIT cfg) max_dd_used then true else violation_found in
  Ok (mk_report printed min_bal max_dd_used violation_found).

Definition analyze_csv (cfg : Config) (rows : list Row) : Output Report :=
  try_except (analysis cfg rows).
End WithRuntime.

End V1.

(** ** Second file: scripts/analyze-prop-firm-v2.py *)
Module V2.

Record Trade := mk_trade {
  dt : datetime;
  date_str : string;
  net_pnl : Q;
  id : cell
}.

Record DayResult := mk_day {
  date : string;
  day_pnl : Q;
  day_loss : Q;
  is_breached : bool
}.

Record Report := mk_report {
  days : list DayResult;
  min_balance : Q;
  max_dd_used : Q;
  violation_found : bool
}.

Section WithRuntime.
Context `{PyRuntime}.

(** [parse_datetime], lines 13-18: the [ValueError] of [strptime] is
    caught and becomes [None]. *)
Definition parse_datetime (date_str : string) : option datetime :=
  match strptime date_str with
  | Some dt => Some dt
  | None => None
  end.

(** The body of [for row in reader], lines 27-46, on the list built so
    far. *)
Definition read_row (all_trades : list Trade) (row : Row) : result (list Trade) :=
  if is_total (ID row) then Ok all_trades
  else
    match truthy (Close_Time row) with
    | None => Ok all_trades
    | Some close_time_str =>
        match parse_datetime close_time_str with
        | None => Ok all_trades
        | Some dt =>
            profit <- float_or_0 (Profit row) ;;
            commission <- float_or_0 (Commission row) ;;
            swap <- float_or_0 (Swap row) ;;
            let net_pnl := (profit + commission + swap)%Q in
            Ok (all_trades ++ [mk_trade dt (strftime dt) net_pnl (ID row)])%list
        end
    end.

Fixpoint read_rows (all_trades : list Trade) (rows : list Row) : result (list Trade) :=
  match rows with
  | [] => Ok all_trades
  | row :: rest =>
      all_trades <- read_row all_trades row ;;
      read_rows all_trades rest
  end.
End WithRuntime.

(** [all_trades.sort(key=lambda x: x['dt'])], line 49 *)
Definition sort_trades (all_trades : list Trade) : list Trade :=
  py_sorted dt_ltb dt all_trades.

(** The loop that fills [trades_by_day] from the sorted trades, lines
    57-61. *)
Fixpoint group_by_day (trades_by_day : gmap string (list Trade))
    (all_trades : list Trade) : gmap string (list Trade) :=
  match all_trades with
  | [] => trades_by_day
  | t :: rest =>
      let d := date_str t in
      let trades_by_day :=
        if decide (is_Some (trades_by_day !! d)) then trades_by_day
        else <[d := []]> trades_by_day in
      group_by_day (alter (fun l => (l ++ [t])%list) d trades_by_day) rest
  end.

(** The loop over [all_trades] for the maximum drawdown, lines 74-77: the
    balance moves after every trade. *)
Fixpoint max_dd_trades (all_trades : list Trade) (current_balance min_balance : Q)
  : Q * Q :=
  match all_trades with
  | [] => (current_balance, min_balance)
  | trade :: rest =>
      let current_balance := (current_balance + net_pnl trade)%Q in
      let min_balance :=
        if Qltb current_balance min_balance then current_balance else min_balance in
      max_dd_trades rest current_balance min_balance
  end.

(** The loop "Now Check Daily", lines 83-98; it carries
    [daily_vol_balance] and [violation_found] from day to day. *)
Fixpoint check_days (cfg : Config) (trades_by_day : gmap string (list Trade))
    (sorted_days : list string) (daily_vol_balance : Q) (violation_found : bool)
  : result (list DayResult * Q * bool) :=
  match sorted_days with
  | [] => Ok ([], daily_vol_balance, violation_found)
  | day :: rest =>
      day_trades <- getitem trades_by_day day ;;
      let day_pnl := py_sum (map net_pnl day_trades) in
      let day_loss := if Qltb day_pnl 0 then Qabs day_pnl else 0%Q in
      let is_breached := Qltb (DAILY_LIMIT cfg) day_loss in
      let violation_found := if is_breached then true else violation_found in
      let daily_vol_balance := (daily_vol_balance + day_pnl)%Q in
      out <- check_days cfg trades_by_day rest daily_vol_balance violation_found ;;
      let '(printed, daily_vol_balance, violation_found) := out in
      Ok (mk_day day day_pnl day_loss is_breached :: printed,
          daily_vol_balance, violation_found)
  end.

(** Everything after the rows are read, lines 49-118: sorting, both
    passes, verdict ([violation_found] decides the line "VERDICT").  The
    file also sets [running_balance] and [max_dd_violation], which it never
    reads. *)
Definition evaluate (cfg : Config) (all_trades : list Trade) : result Report :=
  let all_trades := sort_trades all_trades in
  let trades_by_day := group_by_day ∅ all_trades in
  let violation_found := false in
  let '(current_balance, min_balance) :=
    max_dd_trades all_trades (ACCOUNT_SIZE cfg) (ACCOUNT_SIZE cfg) in
  let sorted_days := sorted_keys trades_by_day in
  out <- check_days cfg trades_by_day sorted_days (ACCOUNT_SIZE cfg) violation_found ;;
  let '(printed, daily_vol_balance, violation_found) := out in
  let max_dd_used := (ACCOUNT_SIZE cfg - min_balance)%Q in
  let violation_found :=
    if Qltb (MAX_DD_LIMIT cfg) max_dd_used then true else violation_found in
  Ok (mk_report printed min_balance max_dd_used violation_found).

Section WithRuntime.
Context `{PyRuntime}.

(** The body of the [try] block, lines 24-118. *)
Definition analysis (cfg : Config) (rows : list Row) : result Report :=
  all_trades <- read_rows [] rows ;;
  evaluate cfg all_trades.

Definition analyze_csv (cfg : Config) (rows : list Row) : Output Report :=
  try_except (analysis cfg rows).
End WithRuntime.

End V2.

(** ** A runtime to run the scripts on text

    [export_runtime] reads the two kinds of text the export writes:
    zero-padded time stamps [DD/MM/YYYY HH:MM:SS] of the proleptic Gregorian
    calendar, and plain decimal numerals with an optional sign and fraction.
    On such text it returns what Python returns (up to rounding of the
    numeral); Python also accepts unpadded fields, exponents, [inf] and the
    like, which the examples below do not use. *)
Module Text.

Definition digit_val (c : ascii) : option nat :=
  let n := nat_of_ascii c in
  if (48 <=? n)%nat && (n <=? 57)%nat then Some (n - 48)%nat else None.

Fixpoint digits_val (acc : nat) (s : list ascii) : option nat :=
  match s with
  | [] => Some acc
  | c :: s' =>
      match digit_val c with
      | Some d => digits_val (10 * acc + d) s'
      | None => None
      end
  end.

Definition number (s : list ascii) : option nat :=
  match s with
  | [] => None
  | _ => digits_val 0 s
  end.

Definition is_leap (y : nat) : bool :=
  ((y mod 4 =? 0) && negb (y mod 100 =? 0) || (y mod 400 =? 0))%nat.

Definition days_in_month (y m : nat) : nat :=
  match m with
  | 2 => if is_leap y then 29 else 28
  | 4 | 6 | 9 | 11 => 30
  | _ => 31
  end.

Definition valid (d : datetime) : bool :=
  ((1 <=? year d) && (1 <=? month d) && (month d <=? 12)
   && (1 <=? day d) && (day d <=? days_in_month (year d) (month d))
   && (hour d <? 24) && (minute d <? 60) && (second d <? 60))%nat.

Definition strptime (s : string) : option datetime :=
  match list_ascii_of_string s with
  | [d1; d2; a; m1; m2; b; y1; y2; y3; y4; c; h1; h2; e; n1; n2; f; s1; s2] =>
      if Ascii.eqb a "/" && Ascii.eqb b "/" && Ascii.eqb c " "
         && Ascii.eqb e ":" && Ascii.eqb f ":"
      then
        match number [d1; d2], number [m1; m2], number [y1; y2; y3; y4],
              number [h1; h2], number [n1; n2], number [s1; s2] with
        | Some dd, Some mm, Some yy, Some hh, Some nn, Some ss =>
            let d := mk_datetime yy mm dd hh nn ss in
            if valid d then Some d else None
        | _, _, _, _, _, _ => None
        end
      else None
  | _ => None
  end.

(** Splits at the first ['.']. *)
Fixpoint split_dot (s : list ascii) : list ascii * option (list ascii) :=
  match s with
  | [] => ([], None)
  | c :: s' =>
      if Ascii.eqb c "." then ([], Some s')
      else let '(i, f) := split_dot s' in (c :: i, f)
  end.

Definition unsigned (s : list ascii) : option Q :=
  match split_dot s with
  | (i, None) =>
      match number i with
      | Some n => Some (inject_Z (Z.of_nat n))
      | None => None
      end
  | (i, Some f) =>
      match number i, number f with
      | Some _, Some _ =>
          match digits_val 0 (i ++ f) with
          | Some n => Some (Z.of_nat n # Pos.pow 10 (Pos.of_nat (length f)))
          | None => None
          end
      | _, _ => None
      end
  end.

Definition float_of_str (s : string) : option Q :=
  match list_ascii_of_string s with
  | c :: s' =>
      if Ascii.eqb c "-" then
        match unsigned s' with Some q => Some (- q)%Q | None => None end
      else if Ascii.eqb c "+" then unsigned s'
      else unsigned (c :: s')
  | [] => None
  end.

End Text.

Definition export_runtime : PyRuntime :=
  {| strptime := Text.strptime; float_of_str := Text.float_of_str |}.

(** ** Notions used in the statements *)

(** What the day loop of the second file prints for one day, from the trades
    of that day alone. *)
Definition V2_day_ok (cfg : Config) (tbd : gmap string (list V2.Trade))
    (day : string) (dr : V2.DayResult) : Prop :=
  exists ts, tbd !! day = Some ts /\
    V2.date dr = day /\
    V2.day_pnl dr = py_sum (map V2.net_pnl ts) /\
    V2.day_loss dr = (if Qltb (V2.day_pnl dr) 0 then Qabs (V2.day_pnl dr) else 0%Q) /\
    V2.is_breached dr = Qltb (DAILY_LIMIT cfg) (V2.day_loss dr).

(** The same for the day loop of the first file; the start balance it also
    prints is the only field that depends on earlier days. *)
Definition V1_day_ok (cfg : Config) (tbd : gmap string (list V1.Trade))
    (day : string) (dr : V1.DayResult) : Prop :=
  exists ts, tbd !! day = Some ts /\
    V1.date dr = day /\
    V1.day_pnl dr = py_sum (map V1.net_pnl ts) /\
    V1.n_trades dr = length ts /\
    V1.day_loss dr = (if Qltb (V1.day_pnl dr) 0 then Qabs (V1.day_pnl dr) else 0%Q) /\
    V1.is_breached dr = Qltb (DAILY_LIMIT cfg) (V1.day_loss dr).

(** The part of a printed day that does not mention the balance. *)
Definition V1_verdict (d : V1.DayResult) : string * Q * Q * bool :=
  (V1.date d, V1.day_pnl d, V1.day_loss d, V1.is_breached d).

Definition V2_verdict (d : V2.DayResult) : string * Q * Q * bool :=
  (V2.date d, V2.day_pnl d, V2.day_loss d, V2.is_breached d).

(** The trade a row contributes in the second file: what reading it into
    the empty list leaves. *)
Definition V2_row_trade `{PyRuntime} (row : Row) : option V2.Trade :=
  match V2.read_row [] row with
  | Ok [t] => Some t
  | _ => None
  end.

(** The day and trade a row contributes in the first file: what reading it
    into the empty dict leaves. *)
Definition V1_row_trade `{PyRuntime} (row : Row) : option (string * V1.Trade) :=
  match V1.read_row ∅ row with
  | Ok d =>
      match map_to_list d with
      | [(day, [t])] => Some (day, t)
      | _ => None
      end
  | Raise _ => None
  end.

(** The order in which the loops of the first file meet the trades: day by
    day in the order of the sorted keys, each day's list from its head. *)
Definition V1_visit_order (trades_by_day : gmap string (list V1.Trade))
  : list V1.Trade :=
  flat_map (fun day => default [] (trades_by_day !! day)) (sorted_keys trades_by_day).

(** The trades in the order the first file meets them, from the rows. *)
Definition V1_trade_sequence `{PyRuntime} (rows : list Row) : result (list V1.Trade) :=
  trades_by_day <- V1.read_rows ∅ rows ;;
  Ok (V1_visit_order trades_by_day).

(** The close time of a trade of the first file, which keeps the text. *)
Definition V1_close_le `{PyRuntime} (a b : V1.Trade) : Prop :=
  exists da db,
    strptime (V1.time a) = Some da /\ strptime (V1.time b) = Some db /\ dt_le da db.

(** ** Inputs of the examples *)

(** A row of the export with all five cells present. *)
Definition text_row (i t p c s : string) : Row :=
  mk_row (Some i) (Some t) (Some p) (Some c) (Some s).

(** One day: 500 lost at 10:00 and won back at 11:00. *)
Definition trough_rows : list Row :=
  [text_row "1" "24/12/2025 10:00:00" "-500" "" "";
   text_row "2" "24/12/2025 11:00:00" "500" "" ""].

(** Two days, each with a dip inside the day. *)
Definition two_day_rows : list Row :=
  [text_row "1" "23/12/2025 09:30:00" "-100" "" "";
   text_row "2" "23/12/2025 15:00:00" "150" "" "";
   text_row "3" "24/12/2025 10:00:00" "-300" "" "";
   text_row "4" "24/12/2025 16:45:00" "100" "" ""].

(** A close time that is not a time stamp, followed by a good row. *)
Definition bad_time_rows : list Row :=
  [text_row "1" "pending" "10" "" "";
   text_row "2" "24/12/2025 11:00:00" "-50" "-1.5" "0"].

(** One day, the later trade first in the file. *)
Definition unordered_rows : list Row :=
  [text_row "1" "24/12/2025 13:00:00" "20" "" "";
   text_row "2" "24/12/2025 09:00:00" "-30" "" ""].

(** One day whose trades net exactly -200, the daily limit of the files. *)
Definition limit_rows : list Row :=
  [text_row "1" "24/12/2025 10:00:00" "-150" "" "";
   text_row "2" "24/12/2025 11:00:00" "-48.5" "-1.5" ""].

(** A loss of 190 on the first day and of 195 on the second: the second is
    within 4 percent of 5000 but beyond 4 percent of the 4810 left after the
    first. *)
Definition shrinking_rows : list Row :=
  [text_row "1" "23/12/2025 10:00:00" "-190" "" "";
   text_row "2" "24/12/2025 10:00:00" "-195" "" ""].

(** The dicts both files build from [shrinking_rows]. *)
Definition shrinking_dict_v1 : gmap string (list V1.Trade) :=
  <["2025-12-23" := [V1.mk_trade (Some "1") (-190) "23/12/2025 10:00:00"]]>
  (<["2025-12-24" := [V1.mk_trade (Some "2") (-195) "24/12/2025 10:00:00"]]> ∅).

Definition shrinking_dict_v2 : gmap string (list V2.Trade) :=
  <["2025-12-23" :=
      [V2.mk_trade (mk_datetime 2025 12 23 10 0 0) "2025-12-23" (-190) (Some "1")]]>
  (<["2025-12-24" :=
      [V2.mk_trade (mk_datetime 2025 12 24 10 0 0) "2025-12-24" (-195) (Some "2")]]> ∅).

(** Only rows that both files pass over. *)
Definition skipped_rows : list Row :=
  [text_row "7" "" "12" "" "";
   mk_row (Some "8") None (Some "3") None None;
   text_row "Total" "24/12/2025 10:00:00" "15" "" ""].

(** A row with a commission, an empty swap and no cell missing. *)
Definition fee_row : Row := text_row "2" "24/12/2025 11:00:00" "-48.5" "-1.5" "".

(** A configuration with a negative account size and percentage. *)
Definition negative_config : Config :=
  {| ACCOUNT_SIZE := -5000; DAILY_DD_PERCENT := -4 |}.

(** A good row, a row whose profit is not a number, and a good row. *)
Definition bad_amount_rows : list Row :=
  [text_row "1" "23/12/2025 10:00:00" "25" "" "";
   text_row "2" "24/12/2025 10:00:00" "n/a" "-1.5" "";
   text_row "3" "24/12/2025 12:00:00" "-40" "" ""].

(** Three rows for one day, the middle one the total row of the export. *)
Definition rows_with_total : list Row :=
  [text_row "1" "24/12/2025 10:00:00" "-50" "" "";
   text_row "Total" "" "70" "" "";
   text_row "2" "24/12/2025 11:00:00" "120" "" ""].

(** The same day with a row that has no close time in the middle. *)
Definition rows_with_open_trade : list Row :=
  [text_row "1" "24/12/2025 10:00:00" "-50" "" "";
   text_row "9" "" "70" "" "";
   text_row "2" "24/12/2025 11:00:00" "120" "" ""].

(** Two printed days, one of each file, that say the same: the same date,
    equal net result and loss, the same breach flag. *)
Definition same_day (d1 : V1.DayResult) (d2 : V2.DayResult) : Prop :=
  V1.date d1 = V2.date d2 /\
  (V1.day_pnl d1 == V2.day_pnl d2)%Q /\
  (V1.day_loss d1 == V2.day_loss d2)%Q /\
  V1.is_breached d1 = V2.is_breached d2.

(** The fields [strftime] writes are in the range of a Python [datetime]:
    a year of at most four digits, a month and a day of at most two. *)
Definition date_in_range (d : datetime) : Prop :=
  (year d < 100 * 100)%nat /\ (month d < 100)%nat /\ (day d < 100)%nat.

(** Two printed days of the second file that say the same. *)
Definition same_result (d1 d2 : V2.DayResult) : Prop :=
  V2.date d1 = V2.date d2 /\
  (V2.day_pnl d1 == V2.day_pnl d2)%Q /\
  (V2.day_loss d1 == V2.day_loss d2)%Q /\
  V2.is_breached d1 = V2.is_breached d2.

(** The rows of [two_day_rows] in another order. *)
Definition shuffled_rows : list Row :=
  [text_row "4" "24/12/2025 16:45:00" "100" "" "";
   text_row "2" "23/12/2025 15:00:00" "150" "" "";
   text_row "1" "23/12/2025 09:30:00" "-100" "" "";
   text_row "3" "24/12/2025 10:00:00" "-300" "" ""].

(** * Properties *)

(** ** Comparison, sorting and the order on [datetime] *)

Lemma Qltb_lt x y : Qltb x y = true <-> (x < y)%Q.
Proof.
  unfold Qltb. rewrite Qlt_alt. destruct (x ?= y)%Q; split; congruence.
Qed.

Lemma Qltb_ge x y : Qltb x y = false <-> (y <= x)%Q.
Proof.
  split.
  - intros H. apply Qnot_lt_le. rewrite <- Qltb_lt. congruence.
  - intros H. destruct (Qltb x y) eqn:E; [|done].
    apply Qltb_lt in E. by apply Qle_not_lt in H.
Qed.

Section SortFacts.
Context {A K : Type} (ltb : K -> K -> bool) (key : A -> K).

Lemma insert_by_Permutation x l : insert_by ltb key x l ≡ₚ x :: l.
Proof.
  induction l as [|y l IH]; simpl; [done|].
  destruct (ltb (key y) (key x)); [|done].
  rewrite IH. apply perm_swap.
Qed.

Lemma py_sorted_Permutation l : py_sorted ltb key l ≡ₚ l.
Proof.
  induction l as [|x l IH]; simpl; [done|].
  by rewrite insert_by_Permutation, IH.
Qed.

Hypothesis ltb_asym : forall a b, ltb a b = true -> ltb b a = false.
Hypothesis nlt_trans :
  forall a b c, ltb b a = false -> ltb c b = false -> ltb c a = false.

Lemma insert_by_sorted x l :
  StronglySorted (key_le ltb key) l ->
  StronglySorted (key_le ltb key) (insert_by ltb key x l).
Proof.
  induction 1 as [|y l Hl IH Hy]; simpl.
  - repeat constructor.
  - destruct (ltb (key y) (key x)) eqn:E.
    + constructor; [done|].
      rewrite insert_by_Permutation. constructor; [|done].
      unfold key_le. by apply ltb_asym.
    + constructor; [by constructor|].
      constructor; [done|].
      eapply Forall_impl; [exact Hy|].
      intros z Hz. unfold key_le in *. eauto.
Qed.

Lemma py_sorted_sorted l : StronglySorted (key_le ltb key) (py_sorted ltb key l).
Proof.
  induction l; simpl; [constructor | by apply insert_by_sorted].
Qed.
End SortFacts.

Section Stable.
Context {A K : Type} `{EqDecision K} (ltb : K -> K -> bool) (key : A -> K).
Hypothesis ltb_irrefl : forall a, ltb a a = false.

Lemma insert_by_filter_key k x l :
  filter (fun a => key a = k) (insert_by ltb key x l)
  = filter (fun a => key a = k) (x :: l).
Proof.
  induction l as [|y l IH]; simpl; [done|].
  destruct (ltb (key y) (key x)) eqn:E; [|done].
  rewrite filter_cons, IH, !filter_cons.
  destruct (decide (key y = k)) as [Hy|Hy], (decide (key x = k)) as [Hx|Hx]; try done.
  rewrite Hy, Hx, ltb_irrefl in E. done.
Qed.

Lemma py_sorted_stable k l :
  filter (fun a => key a = k) (py_sorted ltb key l) = filter (fun a => key a = k) l.
Proof.
  induction l as [|x l IH]; simpl; [done|].
  rewrite insert_by_filter_key, !filter_cons, IH. done.
Qed.
End Stable.

(** A stable sort has one possible result, so [py_sorted] returns what
    Python's own sort returns: two arrangements of a list that are both
    ordered by key and both keep, for every key, the elements of that key
    in their original order, are the same list. *)
Section StableUnique.
Context {A K : Type} `{EqDecision K} (ltb : K -> K -> bool) (key : A -> K).
Hypothesis ltb_irrefl : forall a, ltb a a = false.
Hypothesis ltb_asym : forall a b, ltb a b = true -> ltb b a = false.
Hypothesis nlt_trans :
  forall a b c, ltb b a = false -> ltb c b = false -> ltb c a = false.
Hypothesis nlt_antisym : forall a b, ltb b a = false -> ltb a b = false -> a = b.

Lemma sorted_same_runs_eq l1 l2 :
  StronglySorted (key_le ltb key) l1 -> StronglySorted (key_le ltb key) l2 ->
  (forall k, filter (fun a => key a = k) l1 = filter (fun a => key a = k) l2) ->
  l1 = l2.
Proof.
  intros H1. revert l2. induction H1 as [|x l1 Hl1 IH Hx]; intros l2 H2 Hruns.
  - destruct l2 as [|y l2]; [done|].
    specialize (Hruns (key y)). rewrite filter_nil, filter_cons in Hruns.
    by destruct (decide (key y = key y)).
  - destruct H2 as [|y l2 Hl2 Hy].
    { specialize (Hruns (key x)). rewrite filter_nil, filter_cons in Hruns.
      by destruct (decide (key x = key x)). }
    assert (Hkey : key x = key y).
    { assert (Hxin : x ∈ y :: l2).
      { apply (list_elem_of_filter (fun a => key a = key x)).
        rewrite <- Hruns, filter_cons. destruct (decide (key x = key x)); [left|done]. }
      assert (Hyin : y ∈ x :: l1).
      { apply (list_elem_of_filter (fun a => key a = key y)).
        rewrite Hruns, filter_cons. destruct (decide (key y = key y)); [left|done]. }
      apply elem_of_cons in Hxin as [->|Hxin]; [done|].
      apply elem_of_cons in Hyin as [->|Hyin]; [done|].
      rewrite Forall_forall in Hx, Hy.
      apply nlt_antisym; [apply (Hx y Hyin)|apply (Hy x Hxin)]. }
    pose proof (Hruns (key x)) as Hrun. rewrite !filter_cons in Hrun.
    destruct (decide (key x = key x)); [|done].
    destruct (decide (key y = key x)); [|congruence].
    injection Hrun as <- Hrun. f_equal.
    apply IH; [done|]. intros k.
    destruct (decide (k = key x)) as [->|Hne]; [done|].
    specialize (Hruns k). rewrite !filter_cons in Hruns.
    destruct (decide (key x = k)); [congruence|done].
Qed.

Lemma py_sorted_unique l l' :
  StronglySorted (key_le ltb key) l' ->
  (forall k, filter (fun a => key a = k) l' = filter (fun a => key a = k) l) ->
  l' = py_sorted ltb key l.
Proof.
  intros Hsorted Hruns. apply sorted_same_runs_eq; [done| |].
  - by apply py_sorted_sorted.
  - intros k. by rewrite Hruns, py_sorted_stable.
Qed.
End StableUnique.

Lemma dt_ltb_irrefl a : dt_ltb a a = false.
Proof.
  unfold dt_ltb, dt_compare. rewrite !Nat.compare_refl. done.
Qed.

Ltac cmp_cases :=
  repeat match goal with
  | |- context [(?x ?= ?y)%nat] =>
      destruct (Nat.compare_spec x y); simpl in *; try lia; try congruence; subst
  | H : context [(?x ?= ?y)%nat] |- _ =>
      destruct (Nat.compare_spec x y); simpl in *; try lia; try congruence; subst
  end.

Lemma dt_ltb_asym a b : dt_ltb a b = true -> dt_ltb b a = false.
Proof.
  destruct a, b. unfold dt_ltb, dt_compare; simpl. intros H.
  cmp_cases.
Qed.

Lemma dt_le_trans a b c : dt_le a b -> dt_le b c -> dt_le a c.
Proof.
  destruct a, b, c. unfold dt_le, dt_ltb, dt_compare; simpl. intros H1 H2.
  cmp_cases.
Qed.

Lemma dt_le_antisym a b : dt_le a b -> dt_le b a -> a = b.
Proof.
  destruct a, b. unfold dt_le, dt_ltb, dt_compare; simpl. intros H1 H2.
  cmp_cases.
Qed.

(** The sort of the second file is the only arrangement of the trades that
    is ordered by close time and keeps trades of one close time in their
    order. *)
Lemma V2_sort_trades_unique all_trades sorted :
  StronglySorted (fun a b => dt_le (V2.dt a) (V2.dt b)) sorted ->
  (forall d, filter (fun t => V2.dt t = d) sorted
             = filter (fun t => V2.dt t = d) all_trades) ->
  sorted = V2.sort_trades all_trades.
Proof.
  intros Hsorted Hruns.
  apply (py_sorted_unique dt_ltb V2.dt dt_ltb_irrefl dt_ltb_asym); try done.
  - intros a b c. apply dt_le_trans.
  - intros a b. apply dt_le_antisym.
Qed.

Lemma string_ltb_le a b : String.ltb b a = false <-> String.le a b.
Proof.
  unfold String.le, String.ltb, String.leb.
  rewrite (String.compare_antisym a b).
  destruct (String.compare b a); simpl; split; done.
Qed.

Lemma string_ltb_asym a b : String.ltb a b = true -> String.ltb b a = false.
Proof.
  unfold String.ltb. rewrite (String.compare_antisym b a).
  destruct (String.compare a b); simpl; done.
Qed.

Lemma string_nlt_trans a b c :
  String.ltb b a = false -> String.ltb c b = false -> String.ltb c a = false.
Proof.
  rewrite !string_ltb_le. intros ??. by etrans.
Qed.

(** ** Dicts: the sorted keys are keys *)

Lemma sorted_keys_Permutation {V} (d : gmap string V) : sorted_keys d ≡ₚ keys d.
Proof. apply py_sorted_Permutation. Qed.

Lemma elem_of_keys {V} (d : gmap string V) k : k ∈ keys d <-> is_Some (d !! k).
Proof.
  unfold keys. rewrite list_elem_of_fmap. split.
  - intros [[k' v] [-> Hin]]. apply elem_of_map_to_list in Hin. by exists v.
  - intros [v Hv]. exists (k, v). split; [done|]. by apply elem_of_map_to_list.
Qed.

Lemma elem_of_sorted_keys {V} (d : gmap string V) k :
  k ∈ sorted_keys d <-> is_Some (d !! k).
Proof. by rewrite sorted_keys_Permutation, elem_of_keys. Qed.

Lemma StronglySorted_weaken {A} (R R' : A -> A -> Prop) l :
  (forall a b, R a b -> R' a b) -> StronglySorted R l -> StronglySorted R' l.
Proof.
  intros HR. induction 1 as [|x l Hl IH Hx]; constructor; [done|].
  eapply Forall_impl; [exact Hx|]. auto.
Qed.

Lemma sorted_keys_sorted {V} (d : gmap string V) :
  StronglySorted String.le (sorted_keys d).
Proof.
  eapply StronglySorted_weaken;
    [|apply (py_sorted_sorted String.ltb id string_ltb_asym string_nlt_trans)].
  intros a b Hab. by apply string_ltb_le.
Qed.

Lemma getitem_Ok {V} (d : gmap string V) k v : getitem d k = Ok v <-> d !! k = Some v.
Proof. unfold getitem. destruct (d !! k); split; congruence. Qed.

(** ** Sums and the running balance *)

Lemma fold_left_Qplus_start l a : (fold_left Qplus l a == a + py_sum l)%Q.
Proof.
  unfold py_sum. revert a. induction l as [|x l IH]; intros a; simpl.
  - lra.
  - rewrite (IH (a + x)%Q), (IH (0 + x)%Q). lra.
Qed.

Lemma py_sum_cons x l : (py_sum (x :: l) == x + py_sum l)%Q.
Proof.
  unfold py_sum at 1. simpl. rewrite fold_left_Qplus_start. lra.
Qed.

Lemma py_sum_nil : py_sum [] = 0%Q.
Proof. done. Qed.

(** The loop of the second file keeps, after every trade, the least balance
    seen so far. *)
Lemma max_dd_trades_spec ts cur mn :
  forall cur' mn', V2.max_dd_trades ts cur mn = (cur', mn') ->
  (mn' <= mn)%Q /\
  (forall k, (1 <= k <= length ts)%nat ->
     (mn' <= cur + py_sum (map V2.net_pnl (take k ts)))%Q) /\
  (mn' = mn \/
   exists k, (1 <= k <= length ts)%nat /\
     (mn' == cur + py_sum (map V2.net_pnl (take k ts)))%Q).
Proof.
  revert cur mn. induction ts as [|t ts IH]; intros cur mn cur' mn' Hrun; simpl in Hrun.
  - injection Hrun as <- <-. split; [lra|]. split; [|by left].
    intros k [??]; simpl in *; lia.
  - apply IH in Hrun as (Hle & Hall & Hex).
    assert (Hstep : ((if Qltb (cur + V2.net_pnl t) mn then (cur + V2.net_pnl t)%Q else mn) <= mn)%Q
                    /\ ((if Qltb (cur + V2.net_pnl t) mn then (cur + V2.net_pnl t)%Q else mn)
                        <= cur + V2.net_pnl t)%Q).
    { destruct (Qltb _ mn) eqn:E.
      - apply Qltb_lt in E. lra.
      - apply Qltb_ge in E. lra. }
    destruct Hstep as [Hs1 Hs2].
    split; [lra|]. split.
    + intros [|[|k]] [??]; [lia| |]; simpl in *.
      * rewrite py_sum_cons, py_sum_nil. lra.
      * rewrite py_sum_cons.
        specialize (Hall (S k)). simpl in Hall.
        assert (1 <= S k <= length ts)%nat as Hk by lia.
        apply Hall in Hk. lra.
    + destruct Hex as [->|(k & Hk & Heq)].
      * destruct (Qltb _ mn) eqn:E; [|by left].
        right. exists 1%nat. split; [simpl; lia|]. simpl.
        rewrite py_sum_cons, py_sum_nil. lra.
      * right. exists (S k). split; [simpl; lia|]. simpl.
        rewrite py_sum_cons. lra.
Qed.

(** ** The day loops *)

Lemma V2_check_days_inv cfg tbd days bal viol printed bal' viol' :
  V2.check_days cfg tbd days bal viol = Ok (printed, bal', viol') ->
  Forall2 (V2_day_ok cfg tbd) days printed /\
  viol' = viol || existsb V2.is_breached printed.
Proof.
  revert bal viol printed bal' viol'.
  induction days as [|day days IH]; intros bal viol printed bal' viol' Hrun; simpl in Hrun.
  - injection Hrun as <- <- <-. split; [constructor|]. simpl. by rewrite orb_false_r.
  - destruct (getitem tbd day) as [ts|] eqn:Hget; simpl in Hrun; [|done].
    apply getitem_Ok in Hget.
    match type of Hrun with
    | context [V2.check_days cfg tbd days ?b ?v] =>
        destruct (V2.check_days cfg tbd days b v) as [[[p b1] v1]|] eqn:Hrest
    end; simpl in Hrun; [|done].
    injection Hrun as <- <- <-.
    apply IH in Hrest as [Hall ->]. split.
    + constructor; [|done]. exists ts. simpl. done.
    + simpl. destruct (Qltb (DAILY_LIMIT cfg) _); simpl; [|done].
      by rewrite orb_true_r.
Qed.

Lemma V2_check_days_total cfg tbd days bal viol :
  Forall (fun k => is_Some (tbd !! k)) days ->
  exists out, V2.check_days cfg tbd days bal viol = Ok out.
Proof.
  intros Hdays. revert bal viol.
  induction Hdays as [|day days [ts Hts] _ IH]; intros bal viol; simpl.
  - eauto.
  - unfold getitem. rewrite Hts. simpl.
    match goal with
    | |- context [V2.check_days cfg tbd days ?b ?v] =>
        destruct (IH b v) as [[[p b1] v1] ->]
    end.
    simpl. eauto.
Qed.

Lemma sorted_keys_present {V} (d : gmap string V) :
  Forall (fun k => is_Some (d !! k)) (sorted_keys d).
Proof. apply Forall_forall. intros k. by rewrite elem_of_sorted_keys. Qed.

(** The second file's evaluation never raises. *)
Lemma V2_evaluate_total cfg all_trades : exists r, V2.evaluate cfg all_trades = Ok r.
Proof.
  unfold V2.evaluate.
  destruct (V2.max_dd_trades _ _ _) as [cur mn].
  match goal with
  | |- context [V2.check_days cfg ?tbd ?ds ?b ?v] =>
      destruct (V2_check_days_total cfg tbd ds b v) as [[[p b1] v1] ->];
        [apply sorted_keys_present|]
  end.
  simpl. eauto.
Qed.

Lemma V2_evaluate_inv cfg all_trades r :
  V2.evaluate cfg all_trades = Ok r ->
  let ts := V2.sort_trades all_trades in
  let tbd := V2.group_by_day ∅ ts in
  V2.min_balance r = (V2.max_dd_trades ts (ACCOUNT_SIZE cfg) (ACCOUNT_SIZE cfg)).2 /\
  V2.max_dd_used r = (ACCOUNT_SIZE cfg - V2.min_balance r)%Q /\
  Forall2 (V2_day_ok cfg tbd) (sorted_keys tbd) (V2.days r) /\
  V2.violation_found r =
    existsb V2.is_breached (V2.days r) || Qltb (MAX_DD_LIMIT cfg) (V2.max_dd_used r).
Proof.
  intros Hrun ts tbd. unfold V2.evaluate in Hrun. fold ts in Hrun. fold tbd in Hrun.
  destruct (V2.max_dd_trades ts _ _) as [cur mn].
  destruct (V2.check_days _ _ _ _ _) as [[[p b1] v1]|] eqn:Hdays; simpl in Hrun; [|done].
  injection Hrun as <-. simpl.
  apply V2_check_days_inv in Hdays as [Hall ->]. simpl.
  repeat split; [done|].
  destruct (Qltb (MAX_DD_LIMIT cfg) _); [by rewrite orb_true_r | by rewrite orb_false_r].
Qed.

(** In the second file the reported minimum is the least balance over all
    prefixes of the chronological trade sequence, the empty prefix
    included. *)
Lemma V2_min_balance_is_prefix_minimum cfg all_trades r :
  V2.evaluate cfg all_trades = Ok r ->
  let pnls := map V2.net_pnl (V2.sort_trades all_trades) in
  (forall k, (k <= length pnls)%nat ->
     (V2.min_balance r <= ACCOUNT_SIZE cfg + py_sum (take k pnls))%Q) /\
  (exists k, (k <= length pnls)%nat /\
     (V2.min_balance r == ACCOUNT_SIZE cfg + py_sum (take k pnls))%Q) /\
  V2.max_dd_used r = (ACCOUNT_SIZE cfg - V2.min_balance r)%Q.
Proof.
  intros Hrun pnls. apply V2_evaluate_inv in Hrun as (Hmin & Hused & _).
  split; [|split; [|done]].
  - intros k Hk. rewrite Hmin.
    destruct (V2.max_dd_trades _ _ _) as [cur mn] eqn:Hloop.
    apply max_dd_trades_spec in Hloop as (Hle & Hall & _). simpl.
    destruct k as [|k].
    + unfold py_sum; simpl. lra.
    + unfold pnls. rewrite <- fmap_take. apply Hall.
      unfold pnls in Hk. rewrite length_map in Hk. lia.
  - rewrite Hmin.
    destruct (V2.max_dd_trades _ _ _) as [cur mn] eqn:Hloop.
    apply max_dd_trades_spec in Hloop as (_ & _ & [->|(k & Hk & Heq)]); simpl.
    + exists 0%nat. split; [lia|]. unfold py_sum; simpl. lra.
    + exists k. unfold pnls. rewrite length_map, <- fmap_take. split; [lia|done].
Qed.

Lemma V1_check_days_inv cfg tbd days bal viol printed bal' viol' :
  V1.check_days cfg tbd days bal viol = Ok (printed, bal', viol') ->
  Forall2 (V1_day_ok cfg tbd) days printed /\
  viol' = viol || existsb V1.is_breached printed.
Proof.
  revert bal viol printed bal' viol'.
  induction days as [|day days IH]; intros bal viol printed bal' viol' Hrun; simpl in Hrun.
  - injection Hrun as <- <- <-. split; [constructor|]. simpl. by rewrite orb_false_r.
  - destruct (getitem tbd day) as [ts|] eqn:Hget; simpl in Hrun; [|done].
    apply getitem_Ok in Hget.
    match type of Hrun with
    | context [V1.check_days cfg tbd days ?b ?v] =>
        destruct (V1.check_days cfg tbd days b v) as [[[p b1] v1]|] eqn:Hrest
    end; simpl in Hrun; [|done].
    injection Hrun as <- <- <-.
    apply IH in Hrest as [Hall ->]. split.
    + constructor; [|done]. exists ts. simpl. done.
    + simpl. destruct (Qltb (DAILY_LIMIT cfg) _); simpl; [|done].
      by rewrite orb_true_r.
Qed.

Lemma V1_check_days_total cfg tbd days bal viol :
  Forall (fun k => is_Some (tbd !! k)) days ->
  exists out, V1.check_days cfg tbd days bal viol = Ok out.
Proof.
  intros Hdays. revert bal viol.
  induction Hdays as [|day days [ts Hts] _ IH]; intros bal viol; simpl.
  - eauto.
  - unfold getitem. rewrite Hts. simpl.
    match goal with
    | |- context [V1.check_days cfg tbd days ?b ?v] =>
        destruct (IH b v) as [[[p b1] v1] ->]
    end.
    simpl. eauto.
Qed.

Lemma V1_max_dd_days_total tbd days cur mn :
  Forall (fun k => is_Some (tbd !! k)) days ->
  exists out, V1.max_dd_days tbd days cur mn = Ok out.
Proof.
  intros Hdays. revert cur mn.
  induction Hdays as [|day days [ts Hts] _ IH]; intros cur mn; simpl.
  - eauto.
  - unfold getitem. rewrite Hts. simpl. apply IH.
Qed.

(** Once the rows are read, neither file can raise: an [Error] output
    always comes from a row. *)
Lemma V1_analysis_total `{PyRuntime} cfg rows tbd :
  V1.read_rows ∅ rows = Ok tbd -> exists r, V1.analysis cfg rows = Ok r.
Proof.
  intros Hread. unfold V1.analysis. rewrite Hread. simpl.
  destruct (V1_check_days_total cfg tbd (sorted_keys tbd) (ACCOUNT_SIZE cfg) false)
    as [[[p b1] v1] ->]; [apply sorted_keys_present|].
  simpl.
  destruct (V1_max_dd_days_total tbd (sorted_keys tbd) (ACCOUNT_SIZE cfg) (ACCOUNT_SIZE cfg))
    as [[cur mn] ->]; [apply sorted_keys_present|].
  simpl. eauto.
Qed.

Lemma V1_analysis_inv `{PyRuntime} cfg rows r :
  V1.analysis cfg rows = Ok r ->
  exists tbd, V1.read_rows ∅ rows = Ok tbd /\
    Forall2 (V1_day_ok cfg tbd) (sorted_keys tbd) (V1.days r) /\
    V1.max_dd_used r = (ACCOUNT_SIZE cfg - V1.min_bal r)%Q /\
    V1.violation_found r =
      existsb V1.is_breached (V1.days r) || Qltb (MAX_DD_LIMIT cfg) (V1.max_dd_used r).
Proof.
  unfold V1.analysis. intros Hrun.
  destruct (V1.read_rows ∅ rows) as [tbd|] eqn:Hread; simpl in Hrun; [|done].
  destruct (V1.check_days _ _ _ _ _) as [[[p b1] v1]|] eqn:Hdays; simpl in Hrun; [|done].
  destruct (V1.max_dd_days _ _ _ _) as [[cur mn]|] eqn:Hmax; simpl in Hrun; [|done].
  injection Hrun as <-. simpl.
  apply V1_check_days_inv in Hdays as [Hall ->]. simpl.
  exists tbd. repeat split; [done|].
  destruct (Qltb (MAX_DD_LIMIT cfg) _); [by rewrite orb_true_r | by rewrite orb_false_r].
Qed.

Lemma V2_analysis_total `{PyRuntime} cfg rows ts :
  V2.read_rows [] rows = Ok ts -> exists r, V2.analysis cfg rows = Ok r.
Proof.
  intros Hread. unfold V2.analysis. rewrite Hread. simpl. apply V2_evaluate_total.
Qed.

Lemma V2_analysis_inv `{PyRuntime} cfg rows r :
  V2.analysis cfg rows = Ok r ->
  exists ts, V2.read_rows [] rows = Ok ts /\ V2.evaluate cfg ts = Ok r.
Proof.
  unfold V2.analysis. intros Hrun.
  destruct (V2.read_rows [] rows) as [ts|]; simpl in Hrun; [|done]. eauto.
Qed.

Lemma try_except_Printed {R} (body : result R) r :
  try_except body = Printed r <-> body = Ok r.
Proof. destruct body; simpl; split; congruence. Qed.

Lemma try_except_Error {R} (body : result R) e :
  try_except body = Error e <-> body = Raise e.
Proof. destruct body; simpl; split; congruence. Qed.

(** ** Reading the rows *)

(** [if k not in d: d[k] = []] followed by [d[k].append(x)] *)
Lemma dict_append_lookup {V} (d : gmap string (list V)) k x k' :
  alter (fun l => (l ++ [x])%list) k
        (if decide (is_Some (d !! k)) then d else <[k := []]> d) !! k'
  = if decide (k = k') then Some (default [] (d !! k) ++ [x])%list else d !! k'.
Proof.
  rewrite lookup_alter.
  destruct (decide (k = k')) as [<-|Hne].
  - destruct (decide (is_Some (d !! k))) as [[l Hl]|Hn].
    + by rewrite Hl.
    + rewrite lookup_insert_eq. apply eq_None_not_Some in Hn. by rewrite Hn.
  - destruct (decide (is_Some (d !! k))); [done|]. by rewrite lookup_insert_ne.
Qed.

Lemma float_or_0_empty `{PyRuntime} c : truthy c = None -> float_or_0 c = Ok 0%Q.
Proof. unfold float_or_0. by intros ->. Qed.

Lemma float_or_0_text `{PyRuntime} c s q :
  truthy c = Some s -> (float_or_0 c = Ok q <-> float_of_str s = Some q).
Proof.
  unfold float_or_0. intros ->. destruct (float_of_str s); split; congruence.
Qed.

Lemma truthy_Some c s : truthy c = Some s <-> c = Some s /\ s <> "".
Proof.
  unfold truthy. destruct c as [s'|]; [|split; [done|by intros [??]]].
  destruct (decide (s' = "")); split.
  - done.
  - intros [[= ->] ?]. done.
  - intros [= ->]. done.
  - intros [[= ->] ?]. done.
Qed.

Lemma truthy_None c : truthy c = None <-> c = None \/ c = Some "".
Proof.
  unfold truthy. destruct c as [s'|]; [|split; auto].
  destruct (decide (s' = "")) as [->|Hne]; split; auto; try done.
  intros [?|[= ?]]; done.
Qed.

Section Rows.
Context `{PyRuntime}.

(** A row is passed over by the second file when it is the total row, or
    its close time is empty or rejected by [strptime]. *)
Lemma V2_read_row_skip all_trades row :
  is_total (ID row) = true \/ truthy (Close_Time row) = None \/
  (exists s, truthy (Close_Time row) = Some s /\ strptime s = None) ->
  V2.read_row all_trades row = Ok all_trades.
Proof.
  unfold V2.read_row, V2.parse_datetime.
  intros [->|[Hn|(s & Hs & Hp)]]; [done| |].
  - destruct (is_total _); [done|]. by rewrite Hn.
  - destruct (is_total _); [done|]. by rewrite Hs, Hp.
Qed.

Lemma V2_read_rows_app all_trades rows1 rows2 :
  V2.read_rows all_trades (rows1 ++ rows2) =
  (acc <- V2.read_rows all_trades rows1 ;; V2.read_rows acc rows2).
Proof.
  revert all_trades. induction rows1 as [|row rows1 IH]; intros acc; simpl; [done|].
  destruct (V2.read_row acc row); simpl; [apply IH|done].
Qed.

Lemma V1_read_rows_app tbd rows1 rows2 :
  V1.read_rows tbd (rows1 ++ rows2) =
  (acc <- V1.read_rows tbd rows1 ;; V1.read_rows acc rows2).
Proof.
  revert tbd. induction rows1 as [|row rows1 IH]; intros acc; simpl; [done|].
  destruct (V1.read_row acc row); simpl; [apply IH|done].
Qed.

(** A row on which [float] raises stops the loop of either file, wherever
    it stands. *)
Lemma V2_read_rows_raise rows row :
  row ∈ rows -> (forall acc, exists e, V2.read_row acc row = Raise e) ->
  forall acc, exists e, V2.read_rows acc rows = Raise e.
Proof.
  intros Hin Hbad. induction Hin as [row rows|row r rows Hin IH]; intros acc; simpl.
  - destruct (Hbad acc) as [e ->]. simpl. eauto.
  - destruct (V2.read_row acc r); simpl; eauto.
Qed.

Lemma V1_read_rows_raise rows row :
  row ∈ rows -> (forall acc, exists e, V1.read_row acc row = Raise e) ->
  forall acc, exists e, V1.read_rows acc rows = Raise e.
Proof.
  intros Hin Hbad. induction Hin as [row rows|row r rows Hin IH]; intros acc; simpl.
  - destruct (Hbad acc) as [e ->]. simpl. eauto.
  - destruct (V1.read_row acc r); simpl; eauto.
Qed.
End Rows.

(** ** Runs on the inputs of the examples *)

(** Runs [e] and gives what it returns as the witness of the goal. *)
Ltac exists_result e :=
  let r := eval vm_compute in e in
  match r with
  | Ok ?x => exists x
  | Printed ?x => exists x
  end.

(** Splits a conjunction of closed facts and settles each by running it. *)
Ltac run_all :=
  repeat match goal with |- _ /\ _ => split end;
  try (vm_compute; reflexivity).

(** ** The maximum drawdown pass *)

Section MaxDrawdown.
Local Existing Instance export_runtime.

(** C1.  In the maximum drawdown pass every trade moves the balance, in
    order of close time, and the minimum is taken after each trade.  The
    first file does not do this: on one day with 500 lost at 10:00 and won
    back at 11:00 it prints a lowest balance of 5000 and no drawdown, though
    the balance after the first trade is 4500, below what it prints and
    beyond the limit of 400.  (The second file does: see
    [V2_min_balance_is_prefix_minimum].) *)
Theorem C1_first_file_moves_balance_once_a_day :
  exists r,
    V1.analyze_csv source_config trough_rows = Printed r /\
    (V1.min_bal r == 5000)%Q /\
    (V1.max_dd_used r == 0)%Q /\
    V1.violation_found r = false /\
    (ACCOUNT_SIZE source_config + py_sum [(-500)%Q] < V1.min_bal r)%Q /\
    (MAX_DD_LIMIT source_config
     < ACCOUNT_SIZE source_config - (ACCOUNT_SIZE source_config + py_sum [(-500)%Q]))%Q.
Proof.
  exists_result (V1.analyze_csv source_config trough_rows).
  run_all.
Qed.

(** C2.  The two files do not agree on the lowest balance: on two days
    with a dip inside each day the first file prints 4850 and the second
    4750. *)
Theorem C2_lowest_balance_differs :
  exists r1 r2,
    V1.analyze_csv source_config two_day_rows = Printed r1 /\
    V2.analyze_csv source_config two_day_rows = Printed r2 /\
    (V1.min_bal r1 == 4850)%Q /\
    (V2.min_balance r2 == 4750)%Q /\
    ~ (V1.min_bal r1 == V2.min_balance r2)%Q.
Proof.
  exists_result (V1.analyze_csv source_config two_day_rows).
  exists_result (V2.analyze_csv source_config two_day_rows).
  run_all.
  intros Heq. vm_compute in Heq. discriminate Heq.
Qed.
End MaxDrawdown.

(** ** Rows without a usable close time *)

Section CloseTime.
Context `{PyRuntime}.

(** In the second file a row whose close time is empty or rejected by
    [strptime] changes nothing: the run is the run without that row. *)
Lemma V2_close_time_rejected_is_skipped cfg pre row post :
  truthy (Close_Time row) = None \/
  (exists s, truthy (Close_Time row) = Some s /\ strptime s = None) ->
  V2.analyze_csv cfg (pre ++ row :: post) = V2.analyze_csv cfg (pre ++ post).
Proof.
  intros Hrow. unfold V2.analyze_csv, V2.analysis.
  rewrite !V2_read_rows_app.
  destruct (V2.read_rows [] pre) as [acc|]; simpl; [|done].
  rewrite V2_read_row_skip by auto. done.
Qed.

(** In the first file an empty close time is passed over as well, but a
    close time that [strptime] rejects raises out of the loop: the run ends
    with the error line, whatever follows. *)
Lemma V1_close_time_empty_is_skipped cfg pre row post :
  truthy (Close_Time row) = None ->
  V1.analyze_csv cfg (pre ++ row :: post) = V1.analyze_csv cfg (pre ++ post).
Proof.
  intros Hrow. unfold V1.analyze_csv, V1.analysis.
  rewrite !V1_read_rows_app.
  destruct (V1.read_rows ∅ pre) as [acc|]; simpl; [|done].
  unfold V1.read_row. rewrite Hrow. destruct (is_total _); done.
Qed.

Lemma V1_close_time_rejected_aborts cfg pre row post tbd s :
  V1.read_rows ∅ pre = Ok tbd ->
  is_total (ID row) = false ->
  truthy (Close_Time row) = Some s -> strptime s = None ->
  V1.analyze_csv cfg (pre ++ row :: post)
  = Error (ValueError ("time data '" ++ s
                       ++ "' does not match format '%d/%m/%Y %H:%M:%S'")).
Proof.
  intros Hpre Ht Hs Hp. unfold V1.analyze_csv, V1.analysis.
  rewrite V1_read_rows_app, Hpre. simpl.
  unfold V1.read_row, V1.parse_date. rewrite Ht, Hs, Hp. done.
Qed.
End CloseTime.

Section CloseTimeExample.
Local Existing Instance export_runtime.

(** C3.  A row whose close time does not parse is to be skipped and the
    remaining rows processed.  The first file does not do this: its
    [parse_date] has no handler, so on a row with close time [pending]
    followed by a good row the run ends with the error line and no report.
    The second file, whose [parse_datetime] catches the error, reports the
    day of the good row. *)
Theorem C3_first_file_aborts_on_unparsable_close_time :
  V1.analyze_csv source_config bad_time_rows
  = Error (ValueError
             "time data 'pending' does not match format '%d/%m/%Y %H:%M:%S'") /\
  exists r d,
    V2.analyze_csv source_config bad_time_rows = Printed r /\
    V2.days r = [d] /\ V2.date d = "2025-12-24" /\ (V2.day_pnl d == -51.5)%Q.
Proof.
  split; [vm_compute; reflexivity|].
  exists_result (V2.analyze_csv source_config bad_time_rows).
  eexists. run_all.
Qed.
End CloseTimeExample.

(** ** The order of the trades *)

Section TradeOrder.
Context `{PyRuntime}.

Lemma V2_read_row_trade acc row acc' :
  V2.read_row acc row = Ok acc' ->
  acc' = (acc ++ option_list (V2_row_trade row))%list.
Proof.
  unfold V2_row_trade, V2.read_row.
  destruct (is_total (ID row)); [intros [= <-]; by rewrite app_nil_r|].
  destruct (truthy (Close_Time row)) as [s|]; [|intros [= <-]; by rewrite app_nil_r].
  destruct (V2.parse_datetime s) as [dt|]; [|intros [= <-]; by rewrite app_nil_r].
  destruct (float_or_0 (Profit row)) as [p|]; simpl; [|done].
  destruct (float_or_0 (Commission row)) as [c|]; simpl; [|done].
  destruct (float_or_0 (Swap row)) as [sw|]; simpl; [|done].
  intros [= <-]. done.
Qed.

(** The list the second file sorts holds the trades of the rows, in the
    order of the rows. *)
Lemma V2_read_rows_trades acc rows all_trades :
  V2.read_rows acc rows = Ok all_trades ->
  all_trades = (acc ++ omap V2_row_trade rows)%list.
Proof.
  revert acc. induction rows as [|row rows IH]; intros acc; simpl.
  - intros [= <-]. by rewrite app_nil_r.
  - destruct (V2.read_row acc row) as [acc1|] eqn:Hrow; simpl; [|done].
    intros Hrest. apply IH in Hrest as ->.
    apply V2_read_row_trade in Hrow as ->.
    rewrite <- app_assoc. f_equal.
    destruct (V2_row_trade row); done.
Qed.

Lemma V1_read_row_trade tbd row tbd' :
  V1.read_row tbd row = Ok tbd' ->
  match V1_row_trade row with
  | None => tbd' = tbd
  | Some (day, t) =>
      forall k, tbd' !! k =
        if decide (day = k) then Some (default [] (tbd !! day) ++ [t])%list
        else tbd !! k
  end.
Proof.
  unfold V1_row_trade, V1.read_row.
  destruct (is_total (ID row)).
  { intros [= <-]. by rewrite map_to_list_empty. }
  destruct (truthy (Close_Time row)) as [s|].
  2:{ intros [= <-]. by rewrite map_to_list_empty. }
  destruct (V1.parse_date s) as [d|]; simpl; [|done].
  destruct (float_or_0 (Profit row)) as [p|]; simpl; [|done].
  destruct (float_or_0 (Commission row)) as [c|]; simpl; [|done].
  destruct (float_or_0 (Swap row)) as [sw|]; simpl; [|done].
  intros [= <-].
  destruct (decide (is_Some ((∅ : gmap string (list V1.Trade)) !! d))) as [[l Hl]|_].
  { by rewrite lookup_empty in Hl. }
  rewrite alter_insert_eq, insert_empty, map_to_list_singleton. simpl.
  intros k. apply dict_append_lookup.
Qed.

(** In the first file the list of a day holds the trades of the rows of
    that day, in the order of the rows. *)
Lemma V1_read_rows_trades tbd0 rows tbd :
  V1.read_rows tbd0 rows = Ok tbd ->
  forall day,
    default [] (tbd !! day) =
    (default [] (tbd0 !! day)
     ++ (filter (fun x => x.1 = day) (omap V1_row_trade rows)).*2)%list.
Proof.
  revert tbd0. induction rows as [|row rows IH]; intros tbd0; simpl.
  - intros [= <-] day. by rewrite app_nil_r.
  - destruct (V1.read_row tbd0 row) as [tbd1|] eqn:Hrow; simpl; [|done].
    intros Hrest day. rewrite (IH _ Hrest day).
    apply V1_read_row_trade in Hrow.
    destruct (V1_row_trade row) as [[d t]|].
    + rewrite filter_cons. simpl. rewrite Hrow.
      destruct (decide (d = day)) as [->|Hne]; [|done].
      simpl. by rewrite <- app_assoc.
    + by subst.
Qed.


(** The keys of the dict of the first file are the days of the rows. *)
Lemma V1_read_rows_keys tbd0 rows tbd :
  V1.read_rows tbd0 rows = Ok tbd ->
  forall day,
    is_Some (tbd !! day) <->
    is_Some (tbd0 !! day) \/ day ∈ (omap V1_row_trade rows).*1.
Proof.
  revert tbd0. induction rows as [|row rows IH]; intros tbd0; simpl.
  - intros [= <-] day. rewrite elem_of_nil. tauto.
  - destruct (V1.read_row tbd0 row) as [tbd1|] eqn:Hrow; simpl; [|done].
    intros Hrest day. rewrite (IH _ Hrest day).
    apply V1_read_row_trade in Hrow.
    destruct (V1_row_trade row) as [[d t]|].
    + rewrite fmap_cons, elem_of_cons, Hrow. simpl.
      destruct (decide (d = day)) as [->|Hne].
      * split; [auto|]. intros _. left. eauto.
      * split; [tauto|]. intros [?|[?|?]]; [tauto|congruence|tauto].
    + by subst.
Qed.

Lemma sorted_keys_NoDup {V} (d : gmap string V) : NoDup (sorted_keys d).
Proof.
  rewrite sorted_keys_Permutation. apply NoDup_fst_map_to_list.
Qed.
End TradeOrder.

(** C4, as amended.  In the second file the sequence handed to the two
    passes holds the trades of the rows ordered ascending by close time, and
    trades with the same close time keep the order of the rows.  The first
    file does not order trades by close time: it meets the days of the rows
    in ascending order of their key, and inside a day the trades in the
    order of the rows. *)
Theorem C4_trade_order `{PyRuntime} (rows : list Row) :
  (forall all_trades,
     V2.read_rows [] rows = Ok all_trades ->
     StronglySorted (fun a b => dt_le (V2.dt a) (V2.dt b)) (V2.sort_trades all_trades) /\
     V2.sort_trades all_trades ≡ₚ omap V2_row_trade rows /\
     forall d,
       filter (fun t => V2.dt t = d) (V2.sort_trades all_trades)
       = filter (fun t => V2.dt t = d) (omap V2_row_trade rows)) /\
  (forall sequence,
     V1_trade_sequence rows = Ok sequence ->
     exists days,
       StronglySorted String.le days /\ NoDup days /\
       (forall day, day ∈ days <-> day ∈ (omap V1_row_trade rows).*1) /\
       sequence =
         flat_map (fun day => (filter (fun x => x.1 = day) (omap V1_row_trade rows)).*2)
                  days).
Proof.
  split.
  - intros all_trades Hread. apply V2_read_rows_trades in Hread. simpl in Hread.
    subst all_trades. unfold V2.sort_trades. split; [|split].
    + apply (py_sorted_sorted dt_ltb V2.dt dt_ltb_asym).
      intros a b c. apply dt_le_trans.
    + apply py_sorted_Permutation.
    + intros d. apply (py_sorted_stable dt_ltb V2.dt dt_ltb_irrefl).
  - unfold V1_trade_sequence. intros sequence Hseq.
    destruct (V1.read_rows ∅ rows) as [tbd|] eqn:Hread; simpl in Hseq; [|done].
    injection Hseq as <-. exists (sorted_keys tbd).
    split; [apply sorted_keys_sorted|]. split; [apply sorted_keys_NoDup|]. split.
    + intros day. rewrite elem_of_sorted_keys, (V1_read_rows_keys _ _ _ Hread day).
      rewrite lookup_empty. split; [intros [[? [=]]|?]; done|auto].
    + unfold V1_visit_order.
      induction (sorted_keys tbd) as [|day days IH]; simpl; [done|].
      rewrite IH. f_equal.
      rewrite (V1_read_rows_trades _ _ _ Hread day). by rewrite lookup_empty.
Qed.

Section TradeOrderExamples.
Local Existing Instance export_runtime.

Lemma C4_trade_order_witness :
  (exists all_trades,
     V2.read_rows [] two_day_rows = Ok all_trades /\
     StronglySorted (fun a b => dt_le (V2.dt a) (V2.dt b)) (V2.sort_trades all_trades)) /\
  (exists sequence days,
     V1_trade_sequence two_day_rows = Ok sequence /\
     StronglySorted String.le days /\
     sequence =
       flat_map (fun day =>
                   (filter (fun x => x.1 = day) (omap V1_row_trade two_day_rows)).*2)
                days).
Proof.
  split.
  - exists_result (V2.read_rows [] two_day_rows).
    split; [vm_compute; reflexivity|].
    apply (proj1 (C4_trade_order two_day_rows)). vm_compute; reflexivity.
  - exists_result (V1_trade_sequence two_day_rows).
    match goal with
    | |- exists days, V1_trade_sequence _ = Ok ?s /\ _ =>
        destruct (proj2 (C4_trade_order two_day_rows) s) as (days & Hs & _ & _ & Heq);
          [vm_compute; reflexivity|]
    end.
    exists days. split; [vm_compute; reflexivity|]. auto.
Defined.

(** C4 fails on the first file: with the later trade of a day first in the
    file, the first file meets it first. *)
Lemma C4_first_file_not_ordered_by_close_time :
  exists sequence,
    V1_trade_sequence unordered_rows = Ok sequence /\
    ~ StronglySorted V1_close_le sequence.
Proof.
  exists [V1.mk_trade (Some "1") 20 "24/12/2025 13:00:00";
          V1.mk_trade (Some "2") (-30) "24/12/2025 09:00:00"].
  split; [vm_compute; reflexivity|].
  intros Hsorted.
  apply StronglySorted_inv in Hsorted as [_ Hfirst].
  apply Forall_cons in Hfirst as [(da & db & Ha & Hb & Hle) _].
  vm_compute in Ha. vm_compute in Hb.
  injection Ha as <-. injection Hb as <-.
  vm_compute in Hle. discriminate Hle.
Qed.
End TradeOrderExamples.

(** ** The daily drawdown pass *)

Lemma Forall2_elem_of_r {A B} (P : A -> B -> Prop) l k y :
  Forall2 P l k -> y ∈ k -> exists x, x ∈ l /\ P x y.
Proof.
  induction 1 as [|x y' l k Hxy _ IH]; intros Hin.
  - by apply elem_of_nil in Hin.
  - apply elem_of_cons in Hin as [->|Hin].
    + exists x. split; [left|done].
    + destruct (IH Hin) as (x' & ? & ?). exists x'. split; [by right|done].
Qed.

Lemma DAILY_LIMIT_formula cfg :
  (DAILY_LIMIT cfg == ACCOUNT_SIZE cfg * DAILY_DD_PERCENT cfg / 100)%Q.
Proof. unfold DAILY_LIMIT. field. Qed.

(** C5.  A day is reported as breached exactly when its loss is strictly
    greater than the daily limit, so a loss equal to the limit is not a
    breach; in both files. *)
Theorem C5_breach_is_strict `{PyRuntime} (cfg : Config) (rows : list Row) :
  (forall r d,
     V1.analyze_csv cfg rows = Printed r -> d ∈ V1.days r ->
     (V1.is_breached d = true <-> (DAILY_LIMIT cfg < V1.day_loss d)%Q) /\
     ((V1.day_loss d == DAILY_LIMIT cfg)%Q -> V1.is_breached d = false)) /\
  (forall r d,
     V2.analyze_csv cfg rows = Printed r -> d ∈ V2.days r ->
     (V2.is_breached d = true <-> (DAILY_LIMIT cfg < V2.day_loss d)%Q) /\
     ((V2.day_loss d == DAILY_LIMIT cfg)%Q -> V2.is_breached d = false)).
Proof.
  split.
  - intros r d Hrun Hd. apply try_except_Printed in Hrun.
    apply V1_analysis_inv in Hrun as (tbd & _ & Hdays & _).
    destruct (Forall2_elem_of_r _ _ _ _ Hdays Hd) as (day & _ & ts & _ & _ & _ & _ & _ & ->).
    split; [apply Qltb_lt|].
    intros Heq. apply Qltb_ge. lra.
  - intros r d Hrun Hd. apply try_except_Printed in Hrun.
    apply V2_analysis_inv in Hrun as (ts0 & _ & Hrun).
    apply V2_evaluate_inv in Hrun as (_ & _ & Hdays & _).
    destruct (Forall2_elem_of_r _ _ _ _ Hdays Hd) as (day & _ & ts & _ & _ & _ & _ & ->).
    split; [apply Qltb_lt|].
    intros Heq. apply Qltb_ge. lra.
Qed.

Section DailyExamples.
Local Existing Instance export_runtime.

(** A day netting exactly -200 with account size 5000 and 4 percent: a
    loss of 200 and no breach, in both files. *)
Lemma C5_breach_is_strict_witness :
  (exists r d,
     V1.analyze_csv source_config limit_rows = Printed r /\ V1.days r = [d] /\
     (V1.day_loss d == 200)%Q /\ V1.is_breached d = false) /\
  (exists r d,
     V2.analyze_csv source_config limit_rows = Printed r /\ V2.days r = [d] /\
     (V2.day_loss d == 200)%Q /\ V2.is_breached d = false).
Proof.
  split.
  - exists_result (V1.analyze_csv source_config limit_rows).
    eexists. split; [vm_compute; reflexivity|]. split; [reflexivity|].
    split; [vm_compute; reflexivity|].
    match goal with
    | |- V1.is_breached ?d = false =>
        let out := eval vm_compute in (V1.analyze_csv source_config limit_rows) in
        match out with
        | Printed ?r =>
            apply (proj1 (C5_breach_is_strict source_config limit_rows) r d)
        end
    end.
    + vm_compute; reflexivity.
    + left.
    + vm_compute; reflexivity.
  - exists_result (V2.analyze_csv source_config limit_rows).
    eexists. split; [vm_compute; reflexivity|]. split; [reflexivity|].
    split; [vm_compute; reflexivity|].
    match goal with
    | |- V2.is_breached ?d = false =>
        let out := eval vm_compute in (V2.analyze_csv source_config limit_rows) in
        match out with
        | Printed ?r =>
            apply (proj2 (C5_breach_is_strict source_config limit_rows) r d)
        end
    end.
    + vm_compute; reflexivity.
    + left.
    + vm_compute; reflexivity.
Defined.
End DailyExamples.

Lemma Forall2_same_image {A B C} (P : A -> B -> Prop) (f : B -> C) l k1 k2 :
  (forall x a b, P x a -> P x b -> f a = f b) ->
  Forall2 P l k1 -> Forall2 P l k2 -> map f k1 = map f k2.
Proof.
  intros Hf H1. revert k2. induction H1 as [|x a l k1 Ha _ IH]; intros k2 H2.
  - by apply Forall2_nil_inv_l in H2 as ->.
  - apply Forall2_cons_inv_l in H2 as (b & k2' & Hb & H2 & ->).
    simpl. f_equal; [by eapply Hf|by apply IH].
Qed.

Lemma V1_day_ok_verdict cfg tbd day a b :
  V1_day_ok cfg tbd day a -> V1_day_ok cfg tbd day b -> V1_verdict a = V1_verdict b.
Proof.
  intros (ts & Hts & Ha1 & Ha2 & _ & Ha3 & Ha4) (ts' & Hts' & Hb1 & Hb2 & _ & Hb3 & Hb4).
  assert (ts' = ts) as -> by congruence.
  unfold V1_verdict. rewrite Ha4, Hb4, Ha3, Hb3, Ha2, Hb2, Ha1, Hb1. done.
Qed.

Lemma V2_day_ok_verdict cfg tbd day a b :
  V2_day_ok cfg tbd day a -> V2_day_ok cfg tbd day b -> V2_verdict a = V2_verdict b.
Proof.
  intros (ts & Hts & Ha1 & Ha2 & Ha3 & Ha4) (ts' & Hts' & Hb1 & Hb2 & Hb3 & Hb4).
  assert (ts' = ts) as -> by congruence.
  unfold V2_verdict. rewrite Ha4, Hb4, Ha3, Hb3, Ha2, Hb2, Ha1, Hb1. done.
Qed.

(** C6.  The limit a day's loss is compared with is the account size times
    the daily percentage over 100, whatever balance and whatever earlier
    breach the day loop carries into the day: started from any two
    balances and flags, the loop of either file prints the same date, net
    result, loss and breach flag for every day. *)
Theorem C6_daily_limit_has_fixed_base (cfg : Config) :
  (DAILY_LIMIT cfg == ACCOUNT_SIZE cfg * DAILY_DD_PERCENT cfg / 100)%Q /\
  (forall tbd days b1 v1 b2 v2 out1 out2,
     V1.check_days cfg tbd days b1 v1 = Ok out1 ->
     V1.check_days cfg tbd days b2 v2 = Ok out2 ->
     map V1_verdict out1.1.1 = map V1_verdict out2.1.1 /\
     Forall (fun d => V1.is_breached d = true <->
                      (ACCOUNT_SIZE cfg * DAILY_DD_PERCENT cfg / 100 < V1.day_loss d)%Q)
            out1.1.1) /\
  (forall tbd days b1 v1 b2 v2 out1 out2,
     V2.check_days cfg tbd days b1 v1 = Ok out1 ->
     V2.check_days cfg tbd days b2 v2 = Ok out2 ->
     map V2_verdict out1.1.1 = map V2_verdict out2.1.1 /\
     Forall (fun d => V2.is_breached d = true <->
                      (ACCOUNT_SIZE cfg * DAILY_DD_PERCENT cfg / 100 < V2.day_loss d)%Q)
            out1.1.1).
Proof.
  split; [apply DAILY_LIMIT_formula|]. split.
  - intros tbd days b1 v1 b2 v2 [[p1 b1'] v1'] [[p2 b2'] v2'] H1 H2. simpl.
    apply V1_check_days_inv in H1 as [H1 _]. apply V1_check_days_inv in H2 as [H2 _].
    split; [eapply Forall2_same_image; eauto using V1_day_ok_verdict|].
    apply Forall_forall. intros d Hd.
    destruct (Forall2_elem_of_r _ _ _ _ H1 Hd) as (day & _ & ts & _ & _ & _ & _ & _ & ->).
    rewrite Qltb_lt, DAILY_LIMIT_formula. done.
  - intros tbd days b1 v1 b2 v2 [[p1 b1'] v1'] [[p2 b2'] v2'] H1 H2. simpl.
    apply V2_check_days_inv in H1 as [H1 _]. apply V2_check_days_inv in H2 as [H2 _].
    split; [eapply Forall2_same_image; eauto using V2_day_ok_verdict|].
    apply Forall_forall. intros d Hd.
    destruct (Forall2_elem_of_r _ _ _ _ H1 Hd) as (day & _ & ts & _ & _ & _ & _ & ->).
    rewrite Qltb_lt, DAILY_LIMIT_formula. done.
Qed.

Section FixedBaseExamples.
Local Existing Instance export_runtime.

Lemma shrinking_dicts :
  V1.read_rows ∅ shrinking_rows = Ok shrinking_dict_v1 /\
  V2.group_by_day ∅ (V2.sort_trades
    [V2.mk_trade (mk_datetime 2025 12 23 10 0 0) "2025-12-23" (-190) (Some "1");
     V2.mk_trade (mk_datetime 2025 12 24 10 0 0) "2025-12-24" (-195) (Some "2")])
  = shrinking_dict_v2.
Proof. run_all. Qed.

(** The second day starts from 4810 and loses 195, more than 4 percent of
    4810, and is not a breach: the base is the account size. *)
Lemma second_day_measured_against_account_size :
  exists r d1 d2,
    V1.analyze_csv source_config shrinking_rows = Printed r /\
    V1.days r = [d1; d2] /\
    (V1.day_start_balance d2 == 4810)%Q /\ (V1.day_loss d2 == 195)%Q /\
    (V1.day_start_balance d2 * (DAILY_DD_PERCENT source_config / 100)
     < V1.day_loss d2)%Q /\
    V1.is_breached d2 = false.
Proof.
  exists_result (V1.analyze_csv source_config shrinking_rows).
  eexists. eexists. split; [vm_compute; reflexivity|]. split; [reflexivity|].
  run_all.
Qed.

Lemma C6_daily_limit_has_fixed_base_witness :
  (exists out1 out2,
     V1.check_days source_config shrinking_dict_v1 ["2025-12-23"; "2025-12-24"] 5000 false
       = Ok out1 /\
     V1.check_days source_config shrinking_dict_v1 ["2025-12-23"; "2025-12-24"] 4000 true
       = Ok out2 /\
     map V1_verdict out1.1.1 = map V1_verdict out2.1.1) /\
  (exists out1 out2,
     V2.check_days source_config shrinking_dict_v2 ["2025-12-23"; "2025-12-24"] 5000 false
       = Ok out1 /\
     V2.check_days source_config shrinking_dict_v2 ["2025-12-23"; "2025-12-24"] 4000 true
       = Ok out2 /\
     map V2_verdict out1.1.1 = map V2_verdict out2.1.1).
Proof.
  split.
  - exists_result (V1.check_days source_config shrinking_dict_v1
                     ["2025-12-23"; "2025-12-24"] 5000 false).
    exists_result (V1.check_days source_config shrinking_dict_v1
                     ["2025-12-23"; "2025-12-24"] 4000 true).
    split; [vm_compute; reflexivity|]. split; [vm_compute; reflexivity|].
    eapply (proj1 (proj2 (C6_daily_limit_has_fixed_base source_config))
              shrinking_dict_v1 ["2025-12-23"; "2025-12-24"] 5000%Q false 4000%Q true);
      vm_compute; reflexivity.
  - exists_result (V2.check_days source_config shrinking_dict_v2
                     ["2025-12-23"; "2025-12-24"] 5000 false).
    exists_result (V2.check_days source_config shrinking_dict_v2
                     ["2025-12-23"; "2025-12-24"] 4000 true).
    split; [vm_compute; reflexivity|]. split; [vm_compute; reflexivity|].
    eapply (proj2 (proj2 (C6_daily_limit_has_fixed_base source_config))
              shrinking_dict_v2 ["2025-12-23"; "2025-12-24"] 5000%Q false 4000%Q true);
      vm_compute; reflexivity.
Defined.
End FixedBaseExamples.

(** ** No trades *)

(** C7.  When no row yields a trade, the second file does not fail: it
    prints no day, a lowest balance equal to the account size, a drawdown
    of zero and the verdict that no violation was found. *)
Theorem C7_no_trades `{PyRuntime} (cfg : Config) (rows : list Row) :
  (0 <= ACCOUNT_SIZE cfg)%Q ->
  V2.read_rows [] rows = Ok [] ->
  exists r,
    V2.analyze_csv cfg rows = Printed r /\
    V2.days r = [] /\
    V2.min_balance r = ACCOUNT_SIZE cfg /\
    (V2.max_dd_used r == 0)%Q /\
    V2.violation_found r = false.
Proof.
  intros Hsize Hread. unfold V2.analyze_csv, V2.analysis. rewrite Hread. simpl.
  unfold V2.evaluate. simpl.
  unfold sorted_keys, keys. rewrite map_to_list_empty. simpl.
  eexists. split; [reflexivity|]. simpl.
  split; [done|]. split; [done|]. split; [lra|].
  assert (Qltb (MAX_DD_LIMIT cfg) (ACCOUNT_SIZE cfg - ACCOUNT_SIZE cfg) = false) as ->;
    [|done].
  apply Qltb_ge. unfold MAX_DD_LIMIT. lra.
Qed.

Section NoTradesExamples.
Local Existing Instance export_runtime.

Lemma C7_no_trades_witness :
  exists r,
    V2.analyze_csv source_config skipped_rows = Printed r /\
    V2.days r = [] /\
    V2.min_balance r = ACCOUNT_SIZE source_config /\
    (V2.max_dd_used r == 0)%Q /\
    V2.violation_found r = false.
Proof.
  apply (C7_no_trades source_config skipped_rows); vm_compute; [discriminate|reflexivity].
Defined.
End NoTradesExamples.

(** ** Amounts *)

Lemma float_or_0_Raise `{PyRuntime} c e :
  float_or_0 c = Raise e ->
  exists text, truthy c = Some text /\ float_of_str text = None /\
    e = ValueError ("could not convert string to float: '" ++ text ++ "'").
Proof.
  unfold float_or_0. destruct (truthy c) as [text|]; [|done].
  destruct (float_of_str text) eqn:E; [done|]. intros [= <-]. eauto.
Qed.

(** C8.  The net result of the trade a row contributes is the sum of its
    profit, commission and swap, each read with [float] and an empty or
    missing cell read as 0; in both files. *)
Theorem C8_net_pnl_is_sum_of_amounts `{PyRuntime} (row : Row) :
  (forall t,
     V2_row_trade row = Some t ->
     exists p c s,
       float_or_0 (Profit row) = Ok p /\ float_or_0 (Commission row) = Ok c /\
       float_or_0 (Swap row) = Ok s /\ V2.net_pnl t = (p + c + s)%Q) /\
  (forall day t,
     V1_row_trade row = Some (day, t) ->
     exists p c s,
       float_or_0 (Profit row) = Ok p /\ float_or_0 (Commission row) = Ok c /\
       float_or_0 (Swap row) = Ok s /\ V1.net_pnl t = (p + c + s)%Q) /\
  (forall c, c = None \/ c = Some "" -> float_or_0 c = Ok 0%Q) /\
  (forall text q,
     text <> "" -> (float_or_0 (Some text) = Ok q <-> float_of_str text = Some q)).
Proof.
  split; [|split; [|split]].
  - unfold V2_row_trade, V2.read_row. intros t.
    destruct (is_total (ID row)); [done|].
    destruct (truthy (Close_Time row)) as [s|]; [|done].
    destruct (V2.parse_datetime s) as [dt|]; [|done].
    destruct (float_or_0 (Profit row)) as [p|]; simpl; [|done].
    destruct (float_or_0 (Commission row)) as [c|]; simpl; [|done].
    destruct (float_or_0 (Swap row)) as [sw|]; simpl; [|done].
    intros [= <-]. exists p, c, sw. done.
  - unfold V1_row_trade, V1.read_row. intros day t.
    destruct (is_total (ID row)); [by rewrite map_to_list_empty|].
    destruct (truthy (Close_Time row)) as [s|]; [|by rewrite map_to_list_empty].
    destruct (V1.parse_date s) as [d|]; simpl; [|done].
    destruct (float_or_0 (Profit row)) as [p|]; simpl; [|done].
    destruct (float_or_0 (Commission row)) as [c|]; simpl; [|done].
    destruct (float_or_0 (Swap row)) as [sw|]; simpl; [|done].
    destruct (decide (is_Some ((∅ : gmap string (list V1.Trade)) !! d))) as [[l Hl]|_].
    { by rewrite lookup_empty in Hl. }
    rewrite alter_insert_eq, insert_empty, map_to_list_singleton. simpl.
    intros [= <- <-]. exists p, c, sw. done.
  - intros c Hc. apply float_or_0_empty. by apply truthy_None.
  - intros text q Hne. apply float_or_0_text. by apply truthy_Some.
Qed.

Section AmountExamples.
Local Existing Instance export_runtime.

(** Profit -48.5, commission -1.5 and an empty swap make a net result of
    -50 in both files. *)
Lemma C8_net_pnl_is_sum_of_amounts_witness :
  (exists t p c s,
     V2_row_trade fee_row = Some t /\
     float_or_0 (Profit fee_row) = Ok p /\ float_or_0 (Commission fee_row) = Ok c /\
     float_or_0 (Swap fee_row) = Ok s /\ V2.net_pnl t = (p + c + s)%Q /\
     (V2.net_pnl t == -50)%Q) /\
  (exists day t p c s,
     V1_row_trade fee_row = Some (day, t) /\
     float_or_0 (Profit fee_row) = Ok p /\ float_or_0 (Commission fee_row) = Ok c /\
     float_or_0 (Swap fee_row) = Ok s /\ V1.net_pnl t = (p + c + s)%Q /\
     (V1.net_pnl t == -50)%Q).
Proof.
  split.
  - let out := eval vm_compute in (V2_row_trade fee_row) in
    match out with
    | Some ?t =>
        exists t;
        destruct (proj1 (C8_net_pnl_is_sum_of_amounts fee_row) t)
          as (p & c & s & Hp & Hc & Hs & Hsum); [vm_compute; reflexivity|];
        exists p, c, s
    end.
    split; [vm_compute; reflexivity|]. do 4 (split; [assumption|]).
    vm_compute; reflexivity.
  - let out := eval vm_compute in (V1_row_trade fee_row) in
    match out with
    | Some (?day, ?t) =>
        exists day, t;
        destruct (proj1 (proj2 (C8_net_pnl_is_sum_of_amounts fee_row)) day t)
          as (p & c & s & Hp & Hc & Hs & Hsum); [vm_compute; reflexivity|];
        exists p, c, s
    end.
    split; [vm_compute; reflexivity|]. do 4 (split; [assumption|]).
    vm_compute; reflexivity.
Defined.
End AmountExamples.

Section BadAmount.
Context `{PyRuntime}.

(** What the three conversions of a row do when one of its amounts is text
    that [float] rejects: the first such cell raises. *)
Lemma amounts_raise row :
  (exists c text,
     c ∈ [Profit row; Commission row; Swap row] /\
     c = Some text /\ text <> "" /\ float_of_str text = None) ->
  forall {B} (k : Q -> Q -> Q -> result B),
  exists text,
    float_of_str text = None /\
    (p <- float_or_0 (Profit row) ;;
     c <- float_or_0 (Commission row) ;;
     s <- float_or_0 (Swap row) ;;
     k p c s)
    = Raise (ValueError ("could not convert string to float: '" ++ text ++ "'")).
Proof.
  intros (c & text & Hin & -> & Hne & Hbad) B k.
  assert (Htext : truthy (Some text) = Some text) by (by apply truthy_Some).
  assert (Hnot : forall q cell, cell = Some text -> float_or_0 cell <> Ok q).
  { intros q cell -> Hq. apply (float_or_0_text _ _ _ Htext) in Hq. congruence. }
  destruct (float_or_0 (Profit row)) as [p|e] eqn:Hp; simpl.
  2:{ apply float_or_0_Raise in Hp as (t & _ & ? & ->). eauto. }
  destruct (float_or_0 (Commission row)) as [cm|e] eqn:Hc; simpl.
  2:{ apply float_or_0_Raise in Hc as (t & _ & ? & ->). eauto. }
  destruct (float_or_0 (Swap row)) as [sw|e] eqn:Hs; simpl.
  2:{ apply float_or_0_Raise in Hs as (t & _ & ? & ->). eauto. }
  exfalso. rewrite !elem_of_cons, elem_of_nil in Hin.
  destruct Hin as [Hin|[Hin|[Hin|[]]]]; symmetry in Hin.
  - by apply (Hnot p) in Hin.
  - by apply (Hnot cm) in Hin.
  - by apply (Hnot sw) in Hin.
Qed.

Lemma V2_read_row_bad_amount acc row s dt :
  is_total (ID row) = false -> truthy (Close_Time row) = Some s ->
  strptime s = Some dt ->
  (exists c text,
     c ∈ [Profit row; Commission row; Swap row] /\
     c = Some text /\ text <> "" /\ float_of_str text = None) ->
  exists text,
    float_of_str text = None /\
    V2.read_row acc row
    = Raise (ValueError ("could not convert string to float: '" ++ text ++ "'")).
Proof.
  intros Ht Hs Hp Hbad. unfold V2.read_row, V2.parse_datetime.
  rewrite Ht, Hs, Hp. by apply amounts_raise.
Qed.

Lemma V1_read_row_bad_amount acc row s dt :
  is_total (ID row) = false -> truthy (Close_Time row) = Some s ->
  strptime s = Some dt ->
  (exists c text,
     c ∈ [Profit row; Commission row; Swap row] /\
     c = Some text /\ text <> "" /\ float_of_str text = None) ->
  exists text,
    float_of_str text = None /\
    V1.read_row acc row
    = Raise (ValueError ("could not convert string to float: '" ++ text ++ "'")).
Proof.
  intros Ht Hs Hp Hbad. unfold V1.read_row, V1.parse_date.
  rewrite Ht, Hs, Hp. simpl. by apply amounts_raise.
Qed.
End BadAmount.

(** C10.  A row that is not passed over and has a profit, commission or
    swap that is text [float] rejects ends the run of either file with the
    error line, wherever the row stands: no day and no verdict is printed,
    also for the rows that are good.  When the rows before it are read, the
    error is the one [float] raises on that row. *)
Theorem C10_unparsable_amount_aborts `{PyRuntime}
    (cfg : Config) (rows : list Row) (row : Row) (s : string) (dt : datetime) :
  row ∈ rows ->
  is_total (ID row) = false ->
  truthy (Close_Time row) = Some s ->
  strptime s = Some dt ->
  (exists c text,
     c ∈ [Profit row; Commission row; Swap row] /\
     c = Some text /\ text <> "" /\ float_of_str text = None) ->
  (exists e, V1.analyze_csv cfg rows = Error e) /\
  (exists e, V2.analyze_csv cfg rows = Error e) /\
  (forall pre post all_trades,
     rows = (pre ++ row :: post)%list ->
     V2.read_rows [] pre = Ok all_trades ->
     exists text,
       float_of_str text = None /\
       V2.analyze_csv cfg rows
       = Error (ValueError ("could not convert string to float: '" ++ text ++ "'"))).
Proof.
  intros Hin Ht Hs Hp Hbad. split; [|split].
  - destruct (V1_read_rows_raise rows row Hin) with (acc := (∅ : gmap string (list V1.Trade)))
      as [e He].
    { intros acc. destruct (V1_read_row_bad_amount acc row s dt) as (text & _ & ->); eauto. }
    exists e. unfold V1.analyze_csv, V1.analysis. by rewrite He.
  - destruct (V2_read_rows_raise rows row Hin) with (acc := ([] : list V2.Trade))
      as [e He].
    { intros acc. destruct (V2_read_row_bad_amount acc row s dt) as (text & _ & ->); eauto. }
    exists e. unfold V2.analyze_csv, V2.analysis. by rewrite He.
  - intros pre post acc -> Hpre.
    destruct (V2_read_row_bad_amount acc row s dt) as (text & Htext & Hrow); try done.
    exists text. split; [done|].
    unfold V2.analyze_csv, V2.analysis.
    rewrite V2_read_rows_app, Hpre. simpl. by rewrite Hrow.
Qed.

Section BadAmountExamples.
Local Existing Instance export_runtime.

(** A profit of [n/a] in the second of three rows: both files print the
    error line only. *)
Lemma C10_unparsable_amount_aborts_witness :
  (exists e, V1.analyze_csv source_config bad_amount_rows = Error e) /\
  (exists e, V2.analyze_csv source_config bad_amount_rows = Error e).
Proof.
  destruct (C10_unparsable_amount_aborts source_config bad_amount_rows
              (text_row "2" "24/12/2025 10:00:00" "n/a" "-1.5" "")
              "24/12/2025 10:00:00" (mk_datetime 2025 12 24 10 0 0))
    as (H1 & H2 & _).
  - right. left.
  - vm_compute; reflexivity.
  - vm_compute; reflexivity.
  - vm_compute; reflexivity.
  - exists (Some "n/a"), "n/a". split; [left|]. split; [reflexivity|].
    split; [discriminate|vm_compute; reflexivity].
  - split; assumption.
Defined.

Lemma bad_amount_rows_error :
  V1.analyze_csv source_config bad_amount_rows
  = Error (ValueError "could not convert string to float: 'n/a'") /\
  V2.analyze_csv source_config bad_amount_rows
  = Error (ValueError "could not convert string to float: 'n/a'").
Proof. run_all. Qed.
End BadAmountExamples.

(** ** Configuration *)

(** C9, as amended.  Neither file checks its configuration.  The constants
    written in the files, 5000 and 4, are a valid configuration; with any
    values in their place a run ends with the error line exactly when
    reading a row raises, with the error of that row, and prints a report
    otherwise. *)
Theorem C9_no_configuration_check `{PyRuntime} (cfg : Config) (rows : list Row) :
  ((0 < ACCOUNT_SIZE source_config)%Q /\ (0 <= DAILY_DD_PERCENT source_config)%Q) /\
  (forall e, V1.analyze_csv cfg rows = Error e <-> V1.read_rows ∅ rows = Raise e) /\
  (forall e, V2.analyze_csv cfg rows = Error e <-> V2.read_rows [] rows = Raise e) /\
  ((exists r, V1.analyze_csv cfg rows = Printed r) <->
   (exists trades_by_day, V1.read_rows ∅ rows = Ok trades_by_day)) /\
  ((exists r, V2.analyze_csv cfg rows = Printed r) <->
   (exists all_trades, V2.read_rows [] rows = Ok all_trades)).
Proof.
  split; [split; vm_compute; [reflexivity|discriminate]|].
  split; [|split; [|split]].
  - intros e. unfold V1.analyze_csv. rewrite try_except_Error. split.
    + intros Hrun. destruct (V1.read_rows ∅ rows) as [tbd|e'] eqn:Hread.
      * destruct (V1_analysis_total cfg rows tbd Hread) as [r Hr]. congruence.
      * unfold V1.analysis in Hrun. rewrite Hread in Hrun. simpl in Hrun. congruence.
    + intros Hread. unfold V1.analysis. by rewrite Hread.
  - intros e. unfold V2.analyze_csv. rewrite try_except_Error. split.
    + intros Hrun. destruct (V2.read_rows [] rows) as [ts|e'] eqn:Hread.
      * destruct (V2_analysis_total cfg rows ts Hread) as [r Hr]. congruence.
      * unfold V2.analysis in Hrun. rewrite Hread in Hrun. simpl in Hrun. congruence.
    + intros Hread. unfold V2.analysis. by rewrite Hread.
  - split.
    + intros [r Hr]. apply try_except_Printed, V1_analysis_inv in Hr as (tbd & ? & _).
      eauto.
    + intros [tbd Hread]. destruct (V1_analysis_total cfg rows tbd Hread) as [r Hr].
      exists r. by apply try_except_Printed.
  - split.
    + intros [r Hr]. apply try_except_Printed, V2_analysis_inv in Hr as (ts & ? & _).
      eauto.
    + intros [ts Hread]. destruct (V2_analysis_total cfg rows ts Hread) as [r Hr].
      exists r. by apply try_except_Printed.
Qed.

Section ConfigurationExamples.
Local Existing Instance export_runtime.

(** C9 fails: with a negative account size and a negative percentage both
    files run and print a report. *)
Lemma C9_invalid_configuration_is_evaluated :
  ((ACCOUNT_SIZE negative_config <= 0)%Q /\ (DAILY_DD_PERCENT negative_config < 0)%Q) /\
  (exists r, V1.analyze_csv negative_config trough_rows = Printed r) /\
  (exists r, V2.analyze_csv negative_config trough_rows = Printed r).
Proof.
  split; [split; vm_compute; [discriminate|reflexivity]|]. split.
  - exists_result (V1.analyze_csv negative_config trough_rows). vm_compute; reflexivity.
  - exists_result (V2.analyze_csv negative_config trough_rows). vm_compute; reflexivity.
Qed.
End ConfigurationExamples.

(** * Further properties of the two files *)

(** Applies [thm] to the report the run [e] prints. *)
Ltac at_report e thm :=
  let out := eval vm_compute in e in
  match out with
  | Printed ?r => thm r
  end.

(** ** Rows that are passed over, and rows that stop the run *)

Section PassedOver.
Context `{PyRuntime}.

Lemma V1_read_row_total tbd row : ID row = Some "Total" -> V1.read_row tbd row = Ok tbd.
Proof. unfold V1.read_row, is_total. intros ->. by rewrite bool_decide_eq_true_2. Qed.

Lemma V2_read_row_total acc row : ID row = Some "Total" -> V2.read_row acc row = Ok acc.
Proof. unfold V2.read_row, is_total. intros ->. by rewrite bool_decide_eq_true_2. Qed.

(** X1.  A row whose [ID] is [Total] has no effect in either file, wherever
    it stands and whatever its other cells hold: the run prints what it
    prints without the row. *)
Theorem total_row_is_passed_over (cfg : Config) (pre post : list Row) (row : Row) :
  ID row = Some "Total" ->
  V1.analyze_csv cfg (pre ++ row :: post) = V1.analyze_csv cfg (pre ++ post) /\
  V2.analyze_csv cfg (pre ++ row :: post) = V2.analyze_csv cfg (pre ++ post).
Proof.
  intros Hid. split.
  - unfold V1.analyze_csv, V1.analysis. rewrite !V1_read_rows_app.
    destruct (V1.read_rows ∅ pre) as [acc|]; simpl; [|done].
    by rewrite V1_read_row_total.
  - unfold V2.analyze_csv, V2.analysis. rewrite !V2_read_rows_app.
    destruct (V2.read_rows [] pre) as [acc|]; simpl; [|done].
    by rewrite V2_read_row_total.
Qed.

(** X2.  A row whose close time is missing or empty has no effect in either
    file, even when its amounts are text that [float] rejects: the close
    time is looked at first. *)
Theorem row_without_close_time_is_passed_over
    (cfg : Config) (pre post : list Row) (row : Row) :
  Close_Time row = None \/ Close_Time row = Some "" ->
  V1.analyze_csv cfg (pre ++ row :: post) = V1.analyze_csv cfg (pre ++ post) /\
  V2.analyze_csv cfg (pre ++ row :: post) = V2.analyze_csv cfg (pre ++ post).
Proof.
  intros Hrow. apply truthy_None in Hrow. split.
  - by apply V1_close_time_empty_is_skipped.
  - apply V2_close_time_rejected_is_skipped. by left.
Qed.

(** X3.  In the second file a row whose close time [strptime] rejects has
    no effect either: [parse_datetime] turns the error into [None] and the
    loop goes on with the next row. *)
Theorem second_file_passes_over_rejected_close_time
    (cfg : Config) (pre post : list Row) (row : Row) (s : string) :
  Close_Time row = Some s -> strptime s = None ->
  V2.analyze_csv cfg (pre ++ row :: post) = V2.analyze_csv cfg (pre ++ post).
Proof.
  intros Hrow Hs. apply V2_close_time_rejected_is_skipped.
  destruct (decide (s = "")) as [->|Hne].
  - left. apply truthy_None. by right.
  - right. exists s. split; [|done]. by apply truthy_Some.
Qed.


Lemma float_or_0_Raise_ValueError c e :
  float_or_0 c = Raise e -> exists msg, e = ValueError msg.
Proof.
  unfold float_or_0. destruct (truthy c) as [text|]; [|done].
  destruct (float_of_str text); [done|]. intros [= <-]. eauto.
Qed.

Lemma V1_read_row_ValueError tbd row e :
  V1.read_row tbd row = Raise e -> exists msg, e = ValueError msg.
Proof.
  unfold V1.read_row, V1.parse_date.
  destruct (is_total (ID row)); [done|].
  destruct (truthy (Close_Time row)) as [s|]; [|done].
  destruct (strptime s); simpl; [|intros [= <-]; eauto].
  destruct (float_or_0 (Profit row)) eqn:Hp; simpl;
    [|intros [= <-]; by eapply float_or_0_Raise_ValueError].
  destruct (float_or_0 (Commission row)) eqn:Hc; simpl;
    [|intros [= <-]; by eapply float_or_0_Raise_ValueError].
  destruct (float_or_0 (Swap row)) eqn:Hs; simpl;
    [done|intros [= <-]; by eapply float_or_0_Raise_ValueError].
Qed.

Lemma V2_read_row_ValueError acc row e :
  V2.read_row acc row = Raise e -> exists msg, e = ValueError msg.
Proof.
  unfold V2.read_row.
  destruct (is_total (ID row)); [done|].
  destruct (truthy (Close_Time row)) as [s|]; [|done].
  destruct (V2.parse_datetime s); [|done].
  destruct (float_or_0 (Profit row)) eqn:Hp; simpl;
    [|intros [= <-]; by eapply float_or_0_Raise_ValueError].
  destruct (float_or_0 (Commission row)) eqn:Hc; simpl;
    [|intros [= <-]; by eapply float_or_0_Raise_ValueError].
  destruct (float_or_0 (Swap row)) eqn:Hs; simpl;
    [done|intros [= <-]; by eapply float_or_0_Raise_ValueError].
Qed.

Lemma V1_read_rows_ValueError tbd rows e :
  V1.read_rows tbd rows = Raise e -> exists msg, e = ValueError msg.
Proof.
  revert tbd. induction rows as [|row rows IH]; intros tbd; simpl; [done|].
  destruct (V1.read_row tbd row) eqn:Hrow; simpl; [apply IH|].
  intros [= <-]. by eapply V1_read_row_ValueError.
Qed.

Lemma V2_read_rows_ValueError acc rows e :
  V2.read_rows acc rows = Raise e -> exists msg, e = ValueError msg.
Proof.
  revert acc. induction rows as [|row rows IH]; intros acc; simpl; [done|].
  destruct (V2.read_row acc row) eqn:Hrow; simpl; [apply IH|].
  intros [= <-]. by eapply V2_read_row_ValueError.
Qed.

(** The first file raises on every row the second file raises on. *)
Lemma V2_read_row_Raise_V1 acc tbd row e :
  V2.read_row acc row = Raise e -> V1.read_row tbd row = Raise e.
Proof.
  unfold V2.read_row, V1.read_row, V2.parse_datetime, V1.parse_date.
  destruct (is_total (ID row)); [intros [=]|].
  destruct (truthy (Close_Time row)) as [s|]; [|intros [=]].
  destruct (strptime s); simpl; [|intros [=]].
  destruct (float_or_0 (Profit row)); simpl; [|by intros [= ->]].
  destruct (float_or_0 (Commission row)); simpl; [|by intros [= ->]].
  destruct (float_or_0 (Swap row)); simpl; [intros [=]|by intros [= ->]].
Qed.

Lemma V2_read_rows_Raise_V1 acc tbd rows e :
  V2.read_rows acc rows = Raise e -> exists e', V1.read_rows tbd rows = Raise e'.
Proof.
  revert acc tbd. induction rows as [|row rows IH]; intros acc tbd; simpl; [done|].
  destruct (V2.read_row acc row) as [acc'|e1] eqn:Hrow; simpl.
  - intros Hrest. destruct (V1.read_row tbd row) as [tbd'|e2]; simpl; eauto.
  - intros [= <-]. rewrite (V2_read_row_Raise_V1 _ tbd _ _ Hrow). simpl. eauto.
Qed.
End PassedOver.


(** X6.  The second file is the more lenient of the two: whenever it ends
    with the error line so does the first, and whenever the first prints a
    report so does the second. *)
Theorem second_file_reports_whenever_first_does `{PyRuntime}
    (cfg : Config) (rows : list Row) :
  (forall e, V2.analyze_csv cfg rows = Error e ->
     exists e', V1.analyze_csv cfg rows = Error e') /\
  (forall r1, V1.analyze_csv cfg rows = Printed r1 ->
     exists r2, V2.analyze_csv cfg rows = Printed r2).
Proof.
  assert (Herr : forall e, V2.analyze_csv cfg rows = Error e ->
                   exists e', V1.analyze_csv cfg rows = Error e').
  { intros e Hrun. apply try_except_Error in Hrun.
    destruct (V2.read_rows [] rows) as [ts|e'] eqn:Hread.
    - destruct (V2_analysis_total cfg rows ts Hread) as [r Hr]. congruence.
    - destruct (V2_read_rows_Raise_V1 [] ∅ rows e' Hread) as [e1 He1].
      exists e1. unfold V1.analyze_csv, V1.analysis. by rewrite He1. }
  split; [done|].
  intros r1 Hrun. destruct (V2.analyze_csv cfg rows) as [r2|e] eqn:Hv2; [eauto|].
  destruct (Herr e eq_refl) as [e' He']. congruence.
Qed.

Section PassedOverExamples.
Local Existing Instance export_runtime.

Lemma total_row_is_passed_over_witness :
  V1.analyze_csv source_config rows_with_total
  = V1.analyze_csv source_config
      [text_row "1" "24/12/2025 10:00:00" "-50" "" "";
       text_row "2" "24/12/2025 11:00:00" "120" "" ""] /\
  V2.analyze_csv source_config rows_with_total
  = V2.analyze_csv source_config
      [text_row "1" "24/12/2025 10:00:00" "-50" "" "";
       text_row "2" "24/12/2025 11:00:00" "120" "" ""].
Proof.
  apply (total_row_is_passed_over source_config
           [text_row "1" "24/12/2025 10:00:00" "-50" "" ""]
           [text_row "2" "24/12/2025 11:00:00" "120" "" ""]
           (text_row "Total" "" "70" "" "")).
  reflexivity.
Defined.

Lemma row_without_close_time_is_passed_over_witness :
  V1.analyze_csv source_config rows_with_open_trade
  = V1.analyze_csv source_config
      [text_row "1" "24/12/2025 10:00:00" "-50" "" "";
       text_row "2" "24/12/2025 11:00:00" "120" "" ""] /\
  V2.analyze_csv source_config rows_with_open_trade
  = V2.analyze_csv source_config
      [text_row "1" "24/12/2025 10:00:00" "-50" "" "";
       text_row "2" "24/12/2025 11:00:00" "120" "" ""].
Proof.
  apply (row_without_close_time_is_passed_over source_config
           [text_row "1" "24/12/2025 10:00:00" "-50" "" ""]
           [text_row "2" "24/12/2025 11:00:00" "120" "" ""]
           (text_row "9" "" "70" "" "")).
  right. reflexivity.
Defined.

Lemma second_file_passes_over_rejected_close_time_witness :
  V2.analyze_csv source_config bad_time_rows
  = V2.analyze_csv source_config
      [text_row "2" "24/12/2025 11:00:00" "-50" "-1.5" "0"].
Proof.
  apply (second_file_passes_over_rejected_close_time source_config []
           [text_row "2" "24/12/2025 11:00:00" "-50" "-1.5" "0"]
           (text_row "1" "pending" "10" "" "") "pending").
  - reflexivity.
  - vm_compute; reflexivity.
Defined.



Lemma second_file_reports_whenever_first_does_witness :
  (exists e', V1.analyze_csv source_config bad_amount_rows = Error e') /\
  (exists r2, V2.analyze_csv source_config two_day_rows = Printed r2).
Proof.
  split.
  - apply (proj1 (second_file_reports_whenever_first_does source_config bad_amount_rows)
             (ValueError "could not convert string to float: 'n/a'")).
    vm_compute; reflexivity.
  - let out := eval vm_compute in (V1.analyze_csv source_config two_day_rows) in
    match out with
    | Printed ?r =>
        apply (proj2 (second_file_reports_whenever_first_does source_config two_day_rows) r)
    end.
    vm_compute; reflexivity.
Defined.
End PassedOverExamples.

(** ** What a report holds *)

Lemma day_loss_cases (pnl : Q) :
  let loss := if Qltb pnl 0 then Qabs pnl else 0%Q in
  (0 <= loss)%Q /\ ((pnl < 0)%Q -> (loss == - pnl)%Q) /\ ((0 <= pnl)%Q -> loss = 0%Q).
Proof.
  simpl. destruct (Qltb pnl 0) eqn:E.
  - apply Qltb_lt in E. split; [apply Qabs_nonneg|]. split.
    + intros _. apply Qabs_neg. lra.
    + intros ?. lra.
  - apply Qltb_ge in E. split; [lra|]. split; [intros ?; lra|done].
Qed.

(** X7.  The loss printed for a day is never negative: it is the net result
    of the day with its sign changed when the day lost money, and 0 when the
    day won or broke even; in both files. *)
Theorem day_loss_is_never_negative `{PyRuntime} (cfg : Config) (rows : list Row) :
  (forall r d,
     V1.analyze_csv cfg rows = Printed r -> d ∈ V1.days r ->
     (0 <= V1.day_loss d)%Q /\
     ((V1.day_pnl d < 0)%Q -> (V1.day_loss d == - V1.day_pnl d)%Q) /\
     ((0 <= V1.day_pnl d)%Q -> V1.day_loss d = 0%Q)) /\
  (forall r d,
     V2.analyze_csv cfg rows = Printed r -> d ∈ V2.days r ->
     (0 <= V2.day_loss d)%Q /\
     ((V2.day_pnl d < 0)%Q -> (V2.day_loss d == - V2.day_pnl d)%Q) /\
     ((0 <= V2.day_pnl d)%Q -> V2.day_loss d = 0%Q)).
Proof.
  split.
  - intros r d Hrun Hd. apply try_except_Printed in Hrun.
    apply V1_analysis_inv in Hrun as (tbd & _ & Hdays & _).
    destruct (Forall2_elem_of_r _ _ _ _ Hdays Hd)
      as (day & _ & ts & _ & _ & _ & _ & Hloss & Hbr).
    destruct (day_loss_cases (V1.day_pnl d)) as (H0 & Hneg & Hpos).
    rewrite Hloss. done.
  - intros r d Hrun Hd. apply try_except_Printed in Hrun.
    apply V2_analysis_inv in Hrun as (ts0 & _ & Hrun).
    apply V2_evaluate_inv in Hrun as (_ & _ & Hdays & _).
    destruct (Forall2_elem_of_r _ _ _ _ Hdays Hd)
      as (day & _ & ts & _ & _ & _ & Hloss & Hbr).
    destruct (day_loss_cases (V2.day_pnl d)) as (H0 & Hneg & Hpos).
    rewrite Hloss. done.
Qed.

Lemma existsb_elem_of {A} (f : A -> bool) (l : list A) :
  existsb f l = true <-> exists x, x ∈ l /\ f x = true.
Proof.
  rewrite existsb_exists. split; intros (x & Hx & Hf); exists x;
    (split; [by apply list_elem_of_In|done]).
Qed.

(** X8.  The flag [violation_found] is set exactly when some printed day is
    a breach or the drawdown used is strictly greater than 8 percent of the
    account size; in the second file it decides the verdict line. *)
Theorem violation_found_iff `{PyRuntime} (cfg : Config) (rows : list Row) :
  (forall r,
     V1.analyze_csv cfg rows = Printed r ->
     (V1.violation_found r = true <->
      (exists d, d ∈ V1.days r /\ V1.is_breached d = true) \/
      (ACCOUNT_SIZE cfg * 0.08 < V1.max_dd_used r)%Q)) /\
  (forall r,
     V2.analyze_csv cfg rows = Printed r ->
     (V2.violation_found r = true <->
      (exists d, d ∈ V2.days r /\ V2.is_breached d = true) \/
      (ACCOUNT_SIZE cfg * 0.08 < V2.max_dd_used r)%Q)).
Proof.
  split.
  - intros r Hrun. apply try_except_Printed in Hrun.
    apply V1_analysis_inv in Hrun as (tbd & _ & _ & _ & ->).
    by rewrite orb_true_iff, existsb_elem_of, Qltb_lt.
  - intros r Hrun. apply try_except_Printed in Hrun.
    apply V2_analysis_inv in Hrun as (ts0 & _ & Hrun).
    apply V2_evaluate_inv in Hrun as (_ & _ & _ & ->).
    by rewrite orb_true_iff, existsb_elem_of, Qltb_lt.
Qed.

(** ** The lowest balance *)

(** The loop of the first file keeps the least balance seen at the end of a
    day. *)
Lemma V1_max_dd_days_spec cfg tbd days printed :
  Forall2 (V1_day_ok cfg tbd) days printed ->
  forall cur mn cur' mn',
  V1.max_dd_days tbd days cur mn = Ok (cur', mn') ->
  (mn' <= mn)%Q /\
  (forall k, (1 <= k <= length printed)%nat ->
     (mn' <= cur + py_sum (map V1.day_pnl (take k printed)))%Q) /\
  (mn' = mn \/
   exists k, (1 <= k <= length printed)%nat /\
     (mn' == cur + py_sum (map V1.day_pnl (take k printed)))%Q).
Proof.
  induction 1 as [|day d days printed Hd _ IH]; intros cur mn cur' mn' Hrun;
    simpl in Hrun.
  - injection Hrun as <- <-. split; [lra|]. split; [|by left].
    intros k [??]; simpl in *; lia.
  - destruct Hd as (ts & Hts & _ & Hpnl & _).
    unfold getitem in Hrun. rewrite Hts in Hrun. simpl in Hrun.
    rewrite <- Hpnl in Hrun.
    apply IH in Hrun as (Hle & Hall & Hex).
    assert (Hstep :
      ((if Qltb (cur + V1.day_pnl d) mn then (cur + V1.day_pnl d)%Q else mn) <= mn)%Q /\
      ((if Qltb (cur + V1.day_pnl d) mn then (cur + V1.day_pnl d)%Q else mn)
       <= cur + V1.day_pnl d)%Q).
    { destruct (Qltb _ mn) eqn:E.
      - apply Qltb_lt in E. lra.
      - apply Qltb_ge in E. lra. }
    destruct Hstep as [Hs1 Hs2].
    split; [lra|]. split.
    + intros [|[|k]] [??]; [lia| |]; simpl in *.
      * rewrite py_sum_cons, py_sum_nil. lra.
      * rewrite py_sum_cons.
        specialize (Hall (S k)). simpl in Hall.
        assert (1 <= S k <= length printed)%nat as Hk by lia.
        apply Hall in Hk. lra.
    + destruct Hex as [->|(k & Hk & Heq)].
      * destruct (Qltb _ mn) eqn:E; [|by left].
        right. exists 1%nat. split; [simpl; lia|]. simpl.
        rewrite py_sum_cons, py_sum_nil. lra.
      * right. exists (S k). split; [simpl; lia|]. simpl.
        rewrite py_sum_cons. lra.
Qed.

Lemma V1_analysis_min_bal `{PyRuntime} cfg rows r :
  V1.analysis cfg rows = Ok r ->
  exists tbd cur,
    Forall2 (V1_day_ok cfg tbd) (sorted_keys tbd) (V1.days r) /\
    V1.max_dd_days tbd (sorted_keys tbd) (ACCOUNT_SIZE cfg) (ACCOUNT_SIZE cfg)
    = Ok (cur, V1.min_bal r).
Proof.
  unfold V1.analysis. intros Hrun.
  destruct (V1.read_rows ∅ rows) as [tbd|] eqn:Hread; simpl in Hrun; [|done].
  destruct (V1.check_days _ _ _ _ _) as [[[p b1] v1]|] eqn:Hdays; simpl in Hrun; [|done].
  destruct (V1.max_dd_days _ _ _ _) as [[cur mn]|] eqn:Hmax; simpl in Hrun; [|done].
  injection Hrun as <-. simpl.
  apply V1_check_days_inv in Hdays as [Hall _]. eauto.
Qed.



(** X11.  The drawdown used is never negative and the lowest balance never
    above the account size, in both files: a balance that only rises leaves
    the starting balance as the lowest. *)
Theorem drawdown_used_is_never_negative `{PyRuntime} (cfg : Config) (rows : list Row) :
  (forall r, V1.analyze_csv cfg rows = Printed r ->
     (V1.min_bal r <= ACCOUNT_SIZE cfg)%Q /\ (0 <= V1.max_dd_used r)%Q) /\
  (forall r, V2.analyze_csv cfg rows = Printed r ->
     (V2.min_balance r <= ACCOUNT_SIZE cfg)%Q /\ (0 <= V2.max_dd_used r)%Q).
Proof.
  split.
  - intros r Hrun. apply try_except_Printed in Hrun.
    pose proof (V1_analysis_inv _ _ _ Hrun) as (_ & _ & _ & Hused & _).
    apply V1_analysis_min_bal in Hrun as (tbd & cur & Hdays & Hloop).
    eapply V1_max_dd_days_spec in Hloop as (Hle & _); [|exact Hdays].
    rewrite Hused. split; lra.
  - intros r Hrun. apply try_except_Printed in Hrun.
    apply V2_analysis_inv in Hrun as (ts & _ & Hrun).
    apply V2_evaluate_inv in Hrun as (Hmin & Hused & _).
    destruct (V2.max_dd_trades _ _ _) as [cur mn] eqn:Hloop.
    apply max_dd_trades_spec in Hloop as (Hle & _). simpl in Hmin.
    rewrite Hused, Hmin. split; lra.
Qed.

(** The balance the day loop of the first file carries. *)
Lemma V1_check_days_balance cfg tbd days bal viol printed bal' viol' :
  V1.check_days cfg tbd days bal viol = Ok (printed, bal', viol') ->
  (forall i d, printed !! i = Some d ->
     (V1.day_start_balance d == bal + py_sum (map V1.day_pnl (take i printed)))%Q) /\
  (bal' == bal + py_sum (map V1.day_pnl printed))%Q.
Proof.
  revert bal viol printed bal' viol'.
  induction days as [|day days IH]; intros bal viol printed bal' viol' Hrun; simpl in Hrun.
  - injection Hrun as <- <- <-. split; [intros i d; by rewrite lookup_nil|].
    unfold py_sum; simpl. lra.
  - destruct (getitem tbd day) as [ts|]; simpl in Hrun; [|done].
    match type of Hrun with
    | context [V1.check_days cfg tbd days ?b ?v] =>
        destruct (V1.check_days cfg tbd days b v) as [[[p b1] v1]|] eqn:Hrest
    end; simpl in Hrun; [|done].
    injection Hrun as <- <- <-.
    apply IH in Hrest as [Hstart Hend]. split.
    + intros [|i] d Hd; simpl in Hd.
      * injection Hd as <-. simpl. unfold py_sum; simpl. lra.
      * simpl. rewrite py_sum_cons. simpl. rewrite (Hstart i d Hd). lra.
    + simpl. rewrite py_sum_cons. simpl. lra.
Qed.


Section ReportExamples.
Local Existing Instance export_runtime.

Lemma day_loss_is_never_negative_witness :
  (exists r d, V1.analyze_csv source_config limit_rows = Printed r /\
     V1.days r = [d] /\ (0 <= V1.day_loss d)%Q /\
     (V1.day_loss d == - V1.day_pnl d)%Q) /\
  (exists r d, V2.analyze_csv source_config limit_rows = Printed r /\
     V2.days r = [d] /\ (0 <= V2.day_loss d)%Q /\
     (V2.day_loss d == - V2.day_pnl d)%Q).
Proof.
  split.
  - exists_result (V1.analyze_csv source_config limit_rows).
    eexists. split; [vm_compute; reflexivity|]. split; [reflexivity|].
    match goal with
    | |- (0 <= V1.day_loss ?d)%Q /\ _ =>
        at_report (V1.analyze_csv source_config limit_rows)
          ltac:(fun r =>
            destruct (proj1 (day_loss_is_never_negative source_config limit_rows) r d)
              as (H0 & Hneg & _))
    end.
    + vm_compute; reflexivity.
    + left.
    + split; [exact H0|]. apply Hneg. vm_compute; reflexivity.
  - exists_result (V2.analyze_csv source_config limit_rows).
    eexists. split; [vm_compute; reflexivity|]. split; [reflexivity|].
    match goal with
    | |- (0 <= V2.day_loss ?d)%Q /\ _ =>
        at_report (V2.analyze_csv source_config limit_rows)
          ltac:(fun r =>
            destruct (proj2 (day_loss_is_never_negative source_config limit_rows) r d)
              as (H0 & Hneg & _))
    end.
    + vm_compute; reflexivity.
    + left.
    + split; [exact H0|]. apply Hneg. vm_compute; reflexivity.
Defined.

Lemma violation_found_iff_witness :
  (exists r, V1.analyze_csv source_config trough_rows = Printed r /\
     (V1.violation_found r = true <->
      (exists d, d ∈ V1.days r /\ V1.is_breached d = true) \/
      (ACCOUNT_SIZE source_config * 0.08 < V1.max_dd_used r)%Q)) /\
  (exists r, V2.analyze_csv source_config trough_rows = Printed r /\
     V2.violation_found r = true).
Proof.
  split.
  - at_report (V1.analyze_csv source_config trough_rows) ltac:(fun r => exists r).
    split; [vm_compute; reflexivity|].
    apply (proj1 (violation_found_iff source_config trough_rows)).
    vm_compute; reflexivity.
  - at_report (V2.analyze_csv source_config trough_rows) ltac:(fun r => exists r).
    split; [vm_compute; reflexivity|].
    match goal with
    | |- V2.violation_found ?r = true =>
        apply (proj2 (violation_found_iff source_config trough_rows) r)
    end.
    + vm_compute; reflexivity.
    + right. vm_compute; reflexivity.
Defined.



Lemma drawdown_used_is_never_negative_witness :
  (exists r, V1.analyze_csv source_config two_day_rows = Printed r /\
     (0 <= V1.max_dd_used r)%Q) /\
  (exists r, V2.analyze_csv source_config two_day_rows = Printed r /\
     (0 <= V2.max_dd_used r)%Q).
Proof.
  split.
  - at_report (V1.analyze_csv source_config two_day_rows) ltac:(fun r =>
      exists r; split; [vm_compute; reflexivity|];
      apply (proj1 (drawdown_used_is_never_negative source_config two_day_rows) r)).
    vm_compute; reflexivity.
  - at_report (V2.analyze_csv source_config two_day_rows) ltac:(fun r =>
      exists r; split; [vm_compute; reflexivity|];
      apply (proj2 (drawdown_used_is_never_negative source_config two_day_rows) r)).
    vm_compute; reflexivity.
Defined.

End ReportExamples.

(** ** Days and their trades *)

Lemma Qltb_Qeq x x' y y' : (x == x')%Q -> (y == y')%Q -> Qltb x y = Qltb x' y'.
Proof. intros Hx Hy. unfold Qltb. by rewrite Hx, Hy. Qed.

Lemma py_sum_app l1 l2 : (py_sum (l1 ++ l2) == py_sum l1 + py_sum l2)%Q.
Proof.
  induction l1 as [|x l1 IH]; simpl.
  - rewrite py_sum_nil. lra.
  - rewrite !py_sum_cons, IH. lra.
Qed.

Lemma py_sum_Permutation l1 l2 : l1 ≡ₚ l2 -> (py_sum l1 == py_sum l2)%Q.
Proof.
  induction 1 as [|x l1 l2 _ IH|x y l|l1 l2 l3 _ IH1 _ IH2].
  - reflexivity.
  - rewrite !py_sum_cons, IH. reflexivity.
  - rewrite !py_sum_cons. lra.
  - by rewrite IH1.
Qed.

(** The dict the second file fills: the list of a day holds the trades of
    that day in the order of the list it is filled from. *)
Lemma V2_group_by_day_lookup tbd0 l d :
  default [] (V2.group_by_day tbd0 l !! d)
  = (default [] (tbd0 !! d) ++ filter (fun t => V2.date_str t = d) l)%list.
Proof.
  revert tbd0. induction l as [|t l IH]; intros tbd0; simpl.
  - by rewrite app_nil_r.
  - rewrite IH, dict_append_lookup, filter_cons.
    destruct (decide (V2.date_str t = d)) as [->|Hne]; [|done].
    simpl. by rewrite <- app_assoc.
Qed.

Lemma V2_group_by_day_keys tbd0 l d :
  is_Some (V2.group_by_day tbd0 l !! d) <->
  is_Some (tbd0 !! d) \/ d ∈ map V2.date_str l.
Proof.
  revert tbd0. induction l as [|t l IH]; intros tbd0; simpl.
  - rewrite elem_of_nil. tauto.
  - rewrite IH, dict_append_lookup, elem_of_cons.
    destruct (decide (V2.date_str t = d)) as [->|Hne].
    + split; [auto|]. intros _. left. eauto.
    + split; [tauto|]. intros [?|[?|?]]; [tauto|congruence|tauto].
Qed.

Lemma V1_days_dates cfg tbd days printed :
  Forall2 (V1_day_ok cfg tbd) days printed -> map V1.date printed = days.
Proof.
  induction 1 as [|day d days printed (ts & _ & Hdate & _) _ IH]; simpl; [done|].
  by rewrite Hdate, IH.
Qed.

Lemma V2_days_dates cfg tbd days printed :
  Forall2 (V2_day_ok cfg tbd) days printed -> map V2.date printed = days.
Proof.
  induction 1 as [|day d days printed (ts & _ & Hdate & _) _ IH]; simpl; [done|].
  by rewrite Hdate, IH.
Qed.

(** X13.  The second file prints one result per calendar day on which a
    trade closed, in ascending order of the date, and the net result of a
    day is the sum of the net results of the trades of that date, added in
    order of close time. *)
Theorem second_file_days_are_the_dates_of_the_trades `{PyRuntime}
    (cfg : Config) (rows : list Row) (r : V2.Report) :
  V2.analyze_csv cfg rows = Printed r ->
  let trades := V2.sort_trades (omap V2_row_trade rows) in
  StronglySorted String.le (map V2.date (V2.days r)) /\
  NoDup (map V2.date (V2.days r)) /\
  (forall day, day ∈ map V2.date (V2.days r) <-> day ∈ map V2.date_str trades) /\
  (forall d, d ∈ V2.days r ->
     V2.day_pnl d
     = py_sum (map V2.net_pnl (filter (fun t => V2.date_str t = V2.date d) trades))).
Proof.
  intros Hrun trades. apply try_except_Printed in Hrun.
  apply V2_analysis_inv in Hrun as (ts & Hread & Hrun).
  apply V2_read_rows_trades in Hread. simpl in Hread. subst ts.
  apply V2_evaluate_inv in Hrun as (_ & _ & Hdays & _). fold trades in Hdays.
  rewrite (V2_days_dates _ _ _ _ Hdays).
  split; [apply sorted_keys_sorted|]. split; [apply sorted_keys_NoDup|]. split.
  - intros day. rewrite elem_of_sorted_keys, V2_group_by_day_keys, lookup_empty.
    split; [intros [[? [=]]|?]; done|auto].
  - intros d Hd.
    destruct (Forall2_elem_of_r _ _ _ _ Hdays Hd) as (day & _ & ts & Hts & <- & -> & _).
    pose proof (V2_group_by_day_lookup ∅ trades (V2.date d)) as Hl.
    rewrite Hts, lookup_empty in Hl. simpl in Hl. by rewrite Hl.
Qed.

(** X14.  The first file prints one result per calendar day of a row it
    read, in ascending order of the date; the trades it counts for a day
    are the rows of that date, at least one, and the net result of the day
    is the sum of their net results, added in the order of the rows. *)
Theorem first_file_days_are_the_dates_of_the_rows `{PyRuntime}
    (cfg : Config) (rows : list Row) (r : V1.Report) :
  V1.analyze_csv cfg rows = Printed r ->
  let trades := omap V1_row_trade rows in
  StronglySorted String.le (map V1.date (V1.days r)) /\
  NoDup (map V1.date (V1.days r)) /\
  (forall day, day ∈ map V1.date (V1.days r) <-> day ∈ trades.*1) /\
  (forall d, d ∈ V1.days r ->
     let of_day := (filter (fun x => x.1 = V1.date d) trades).*2 in
     V1.day_pnl d = py_sum (map V1.net_pnl of_day) /\
     V1.n_trades d = length of_day /\ (1 <= V1.n_trades d)%nat).
Proof.
  intros Hrun trades. apply try_except_Printed in Hrun.
  apply V1_analysis_inv in Hrun as (tbd & Hread & Hdays & _).
  rewrite (V1_days_dates _ _ _ _ Hdays).
  split; [apply sorted_keys_sorted|]. split; [apply sorted_keys_NoDup|]. split.
  - intros day. rewrite elem_of_sorted_keys, (V1_read_rows_keys _ _ _ Hread day).
    rewrite lookup_empty. split; [intros [[? [=]]|?]; done|auto].
  - intros d Hd of_day.
    destruct (Forall2_elem_of_r _ _ _ _ Hdays Hd)
      as (day & Hday & ts & Hts & <- & -> & -> & _).
    pose proof (V1_read_rows_trades _ _ _ Hread (V1.date d)) as Hl.
    rewrite Hts, lookup_empty in Hl. simpl in Hl. subst ts.
    split; [done|]. split; [done|].
    apply elem_of_sorted_keys in Hday.
    apply (V1_read_rows_keys _ _ _ Hread (V1.date d)) in Hday as [[? Hday]|Hday].
    { by rewrite lookup_empty in Hday. }
    apply list_elem_of_fmap in Hday as ([day' t] & Heq & Hin). simpl in Heq.
    assert (Hin' : t ∈ of_day).
    { apply list_elem_of_fmap. exists (day', t). split; [done|].
      apply list_elem_of_filter. done. }
    clear -Hin'. unfold of_day, trades in *.
    destruct ((filter _ (omap V1_row_trade rows)).*2); [by apply elem_of_nil in Hin'|].
    simpl. lia.
Qed.

(** A list splits into the runs of its keys. *)
Lemma runs_of_keys_Permutation {K V} `{EqDecision K} (l : list (K * V)) (ks : list K) :
  NoDup ks -> (forall k, k ∈ l.*1 -> k ∈ ks) ->
  flat_map (fun k => (filter (fun x => x.1 = k) l).*2) ks ≡ₚ l.*2.
Proof.
  intros Hnd. revert l. induction Hnd as [|k ks Hk Hnd IH]; intros l Hl; simpl.
  - destruct l as [|[k v] l]; [done|].
    specialize (Hl k). rewrite fmap_cons, elem_of_cons, elem_of_nil in Hl. tauto.
  - assert (Hsplit : l.*2 ≡ₚ (filter (fun x => x.1 = k) l).*2
                               ++ (filter (fun x => x.1 <> k) l).*2).
    { rewrite <- fmap_app. f_equiv. symmetry. apply filter_app_complement. }
    rewrite Hsplit. f_equiv.
    rewrite <- (IH (filter (fun x => x.1 <> k) l)).
    + assert (Heq : flat_map (fun k0 => (filter (fun x => x.1 = k0) l).*2) ks
                    = flat_map (fun k0 => (filter (fun x => x.1 = k0)
                                             (filter (fun x => x.1 <> k) l)).*2) ks);
        [|by rewrite Heq].
      clear IH Hnd Hl Hsplit.
      induction ks as [|k' ks IH]; simpl; [done|].
      apply not_elem_of_cons in Hk as [Hne Hk].
      rewrite (IH Hk). f_equal. f_equal.
      rewrite list_filter_filter. apply list_filter_iff.
      intros [k0 v]; simpl. split; [|tauto]. intros ->. split; [done|congruence].
    + intros k0 Hk0. apply list_elem_of_fmap in Hk0 as ([k1 v] & -> & Hin).
      apply list_elem_of_filter in Hin as [Hne Hin]. simpl in *.
      assert (k1 ∈ k :: ks) as Hin'.
      { apply Hl. apply list_elem_of_fmap. by exists (k1, v). }
      apply elem_of_cons in Hin' as [->|?]; done.
Qed.

Lemma py_sum_flat_map {A} (f : A -> list Q) (l : list A) :
  (py_sum (flat_map f l) == py_sum (map (fun a => py_sum (f a)) l))%Q.
Proof.
  induction l as [|a l IH]; simpl; [reflexivity|].
  rewrite py_sum_app, py_sum_cons, IH. reflexivity.
Qed.

Lemma map_flat_map {A B C} (g : B -> C) (f : A -> list B) (l : list A) :
  map g (flat_map f l) = flat_map (fun a => map g (f a)) l.
Proof.
  induction l as [|a l IH]; simpl; [done|]. by rewrite map_app, IH.
Qed.

Section Partition.
Context `{PyRuntime}.

Lemma V1_visit_order_runs tbd rows :
  V1.read_rows ∅ rows = Ok tbd ->
  V1_visit_order tbd
  = flat_map (fun day => (filter (fun x => x.1 = day) (omap V1_row_trade rows)).*2)
             (sorted_keys tbd).
Proof.
  intros Hread. unfold V1_visit_order.
  induction (sorted_keys tbd) as [|day days IH]; simpl; [done|].
  rewrite IH. f_equal.
  rewrite (V1_read_rows_trades _ _ _ Hread day). by rewrite lookup_empty.
Qed.

(** Every trade the first file read is met once by its loops. *)
Lemma V1_visit_order_Permutation tbd rows :
  V1.read_rows ∅ rows = Ok tbd ->
  V1_visit_order tbd ≡ₚ (omap V1_row_trade rows).*2.
Proof.
  intros Hread. rewrite (V1_visit_order_runs _ _ Hread).
  apply runs_of_keys_Permutation; [apply sorted_keys_NoDup|].
  intros k Hk. apply elem_of_sorted_keys, (V1_read_rows_keys _ _ _ Hread k). by right.
Qed.

Lemma V2_filter_date_str trades k :
  (filter (fun x => x.1 = k) (map (fun t => (V2.date_str t, t)) trades)).*2
  = filter (fun t => V2.date_str t = k) trades.
Proof.
  induction trades as [|t trades IH]; [done|].
  cbn [map]. rewrite !filter_cons. cbn [fst].
  destruct (decide (V2.date_str t = k)); [rewrite fmap_cons|]; by rewrite IH.
Qed.

(** The lists of the dict of the second file, day after day, hold every
    trade once. *)
Lemma V2_days_Permutation trades :
  flat_map (fun day => default [] (V2.group_by_day ∅ trades !! day))
           (sorted_keys (V2.group_by_day ∅ trades))
  ≡ₚ trades.
Proof.
  set (tbd := V2.group_by_day ∅ trades).
  assert (Heq : flat_map (fun day => default [] (tbd !! day)) (sorted_keys tbd)
          = flat_map (fun k => (filter (fun x => x.1 = k)
                                  (map (fun t => (V2.date_str t, t)) trades)).*2)
                     (sorted_keys tbd)).
  { induction (sorted_keys tbd) as [|day days IH]; cbn [flat_map]; [done|].
    rewrite IH. f_equal. unfold tbd.
    by rewrite V2_group_by_day_lookup, lookup_empty, V2_filter_date_str. }
  rewrite Heq.
  etrans; [apply (runs_of_keys_Permutation
                    (map (fun t => (V2.date_str t, t)) trades) (sorted_keys tbd))|].
  - apply sorted_keys_NoDup.
  - intros k Hk. apply elem_of_sorted_keys, V2_group_by_day_keys. right.
    rewrite <- list_fmap_compose in Hk. done.
  - rewrite <- list_fmap_compose. simpl. by rewrite list_fmap_id.
Qed.

Lemma V1_days_pnl cfg tbd days printed :
  Forall2 (V1_day_ok cfg tbd) days printed ->
  map V1.day_pnl printed
  = map (fun day => py_sum (map V1.net_pnl (default [] (tbd !! day)))) days /\
  map V1.n_trades printed = map (fun day => length (default [] (tbd !! day))) days.
Proof.
  induction 1 as [|day d days printed (ts & Hts & _ & Hpnl & Hn & _) _ [IH1 IH2]]; simpl;
    [done|].
  by rewrite Hpnl, Hn, IH1, IH2, Hts.
Qed.

Lemma V2_days_pnl cfg tbd days printed :
  Forall2 (V2_day_ok cfg tbd) days printed ->
  map V2.day_pnl printed
  = map (fun day => py_sum (map V2.net_pnl (default [] (tbd !! day)))) days.
Proof.
  induction 1 as [|day d days printed (ts & Hts & _ & Hpnl & _) _ IH]; simpl; [done|].
  by rewrite Hpnl, IH, Hts.
Qed.

Lemma sum_list_flat_map {A B} (f : A -> list B) (l : list A) :
  sum_list (map (fun a => length (f a)) l) = length (flat_map f l).
Proof.
  induction l as [|a l IH]; simpl; [done|]. by rewrite length_app, IH.
Qed.
End Partition.

(** X15.  The first file counts every trade in exactly one day: the trade
    counts of the printed days add up to the number of rows that were not
    passed over. *)
Theorem first_file_counts_every_trade_once `{PyRuntime}
    (cfg : Config) (rows : list Row) (r : V1.Report) :
  V1.analyze_csv cfg rows = Printed r ->
  sum_list (map V1.n_trades (V1.days r)) = length (omap V1_row_trade rows).
Proof.
  intros Hrun. apply try_except_Printed in Hrun.
  apply V1_analysis_inv in Hrun as (tbd & Hread & Hdays & _).
  apply V1_days_pnl in Hdays as [_ ->].
  rewrite (sum_list_flat_map (fun day => default [] (tbd !! day))).
  fold (V1_visit_order tbd).
  by rewrite (V1_visit_order_Permutation _ _ Hread), length_fmap.
Qed.


(** ** The two files on the same rows *)

Section SameRows.
Context `{PyRuntime}.

(** What a row contributes in the first file is what it contributes in the
    second, under the day of its date. *)
Lemma V1_row_trade_of_V2 row :
  V1_row_trade row
  = (fun t => (V2.date_str t,
               V1.mk_trade (V2.id t) (V2.net_pnl t) (default "" (Close_Time row))))
    <$> V2_row_trade row.
Proof.
  unfold V1_row_trade, V2_row_trade, V1.read_row, V2.read_row, V1.parse_date,
    V2.parse_datetime.
  destruct (is_total (ID row)); [by rewrite map_to_list_empty|].
  destruct (truthy (Close_Time row)) as [s|] eqn:Hs; [|by rewrite map_to_list_empty].
  apply truthy_Some in Hs as [Hs _]. rewrite Hs.
  destruct (strptime s) as [dt|]; simpl; [|done].
  destruct (float_or_0 (Profit row)) as [p|]; simpl; [|done].
  destruct (float_or_0 (Commission row)) as [c|]; simpl; [|done].
  destruct (float_or_0 (Swap row)) as [sw|]; simpl; [|done].
  destruct (decide (is_Some ((∅ : gmap string (list V1.Trade)) !! strftime dt)))
    as [[l Hl]|_].
  { by rewrite lookup_empty in Hl. }
  by rewrite alter_insert_eq, insert_empty, map_to_list_singleton.
Qed.

Lemma row_trades_same_pnl rows day :
  map V1.net_pnl (filter (fun x => x.1 = day) (omap V1_row_trade rows)).*2
  = map V2.net_pnl (filter (fun t => V2.date_str t = day) (omap V2_row_trade rows)).
Proof.
  induction rows as [|row rows IH]; [done|].
  cbn [omap list_omap]. rewrite V1_row_trade_of_V2.
  destruct (V2_row_trade row) as [t|]; simpl; [|apply IH].
  rewrite !filter_cons. simpl.
  destruct (decide (V2.date_str t = day)); [|apply IH].
  rewrite fmap_cons. simpl. f_equal. apply IH.
Qed.

Lemma row_trades_same_days rows day :
  day ∈ (omap V1_row_trade rows).*1 <-> day ∈ map V2.date_str (omap V2_row_trade rows).
Proof.
  induction rows as [|row rows IH]; [done|].
  cbn [omap list_omap]. rewrite V1_row_trade_of_V2.
  destruct (V2_row_trade row) as [t|]; simpl; [|apply IH].
  rewrite !elem_of_cons, IH. done.
Qed.

Lemma Forall2_zip_right {A B C} (P : A -> B -> Prop) (Q : A -> C -> Prop)
    (R : B -> C -> Prop) l k1 k2 :
  (forall x b c, P x b -> Q x c -> R b c) ->
  Forall2 P l k1 -> Forall2 Q l k2 -> Forall2 R k1 k2.
Proof.
  intros HR H1. revert k2. induction H1 as [|x b l k1 Hb _ IH]; intros k2 H2.
  - apply Forall2_nil_inv_l in H2 as ->. constructor.
  - apply Forall2_cons_inv_l in H2 as (c & k2' & Hc & H2 & ->).
    constructor; [by eapply HR|by apply IH].
Qed.
End SameRows.

Lemma same_days_of_same_rows `{PyRuntime}
    (cfg : Config) (rows : list Row) (r1 : V1.Report) (r2 : V2.Report) :
  V1.analysis cfg rows = Ok r1 ->
  V2.analysis cfg rows = Ok r2 ->
  Forall2 same_day (V1.days r1) (V2.days r2).
Proof.
  intros Hrun1 Hrun2.
  apply V1_analysis_inv in Hrun1 as (tbd1 & Hread1 & Hdays1 & _).
  apply V2_analysis_inv in Hrun2 as (ts & Hread2 & Hrun2).
  apply V2_read_rows_trades in Hread2. simpl in Hread2. subst ts.
  apply V2_evaluate_inv in Hrun2 as (_ & _ & Hdays2 & _).
  set (trades := V2.sort_trades (omap V2_row_trade rows)) in *.
  set (tbd2 := V2.group_by_day ∅ trades) in *.
  assert (Hkeys : sorted_keys tbd1 = sorted_keys tbd2).
  { apply (StronglySorted_unique String.le); try apply sorted_keys_sorted.
    apply NoDup_Permutation; try apply sorted_keys_NoDup.
    intros day. rewrite !elem_of_sorted_keys.
    rewrite (V1_read_rows_keys _ _ _ Hread1 day). unfold tbd2.
    rewrite V2_group_by_day_keys, !lookup_empty, row_trades_same_days.
    assert (Hperm : map V2.date_str trades ≡ₚ map V2.date_str (omap V2_row_trade rows))
      by apply Permutation_map, py_sorted_Permutation.
    rewrite Hperm. split; (intros [[? [=]]|?]; [by right]). }
  rewrite Hkeys in Hdays1.
  eapply Forall2_zip_right; [|exact Hdays1|exact Hdays2].
  intros day d1 d2 (ts1 & Hts1 & Hd1 & Hp1 & _ & Hl1 & Hb1) (ts2 & Hts2 & Hd2 & Hp2 & Hl2 & Hb2).
  assert (Hpnl : (V1.day_pnl d1 == V2.day_pnl d2)%Q).
  { rewrite Hp1, Hp2.
    pose proof (V1_read_rows_trades _ _ _ Hread1 day) as E1.
    rewrite Hts1, lookup_empty in E1. simpl in E1. subst ts1.
    pose proof (V2_group_by_day_lookup ∅ trades day) as E2. fold tbd2 in E2.
    rewrite Hts2, lookup_empty in E2. simpl in E2. subst ts2.
    rewrite row_trades_same_pnl. apply py_sum_Permutation, Permutation_map.
    symmetry. apply filter_Permutation, py_sorted_Permutation. }
  assert (Hloss : (V1.day_loss d1 == V2.day_loss d2)%Q).
  { rewrite Hl1, Hl2, (Qltb_Qeq _ (V2.day_pnl d2) 0 0 Hpnl) by reflexivity.
    destruct (Qltb (V2.day_pnl d2) 0); [by rewrite Hpnl|reflexivity]. }
  split; [congruence|]. split; [done|]. split; [done|].
  rewrite Hb1, Hb2. apply Qltb_Qeq; [reflexivity|done].
Qed.


Section PartitionExamples.
Local Existing Instance export_runtime.

Lemma second_file_days_are_the_dates_of_the_trades_witness :
  exists r,
    V2.analyze_csv source_config two_day_rows = Printed r /\
    StronglySorted String.le (map V2.date (V2.days r)) /\
    NoDup (map V2.date (V2.days r)).
Proof.
  at_report (V2.analyze_csv source_config two_day_rows) ltac:(fun r =>
    exists r;
    destruct (second_file_days_are_the_dates_of_the_trades source_config two_day_rows r)
      as (Hs & Hn & _)).
  - vm_compute; reflexivity.
  - split; [vm_compute; reflexivity|]. split; assumption.
Defined.

Lemma first_file_days_are_the_dates_of_the_rows_witness :
  exists r,
    V1.analyze_csv source_config two_day_rows = Printed r /\
    StronglySorted String.le (map V1.date (V1.days r)) /\
    NoDup (map V1.date (V1.days r)).
Proof.
  at_report (V1.analyze_csv source_config two_day_rows) ltac:(fun r =>
    exists r;
    destruct (first_file_days_are_the_dates_of_the_rows source_config two_day_rows r)
      as (Hs & Hn & _)).
  - vm_compute; reflexivity.
  - split; [vm_compute; reflexivity|]. split; assumption.
Defined.

Lemma first_file_counts_every_trade_once_witness :
  exists r,
    V1.analyze_csv source_config rows_with_total = Printed r /\
    sum_list (map V1.n_trades (V1.days r)) = length (omap V1_row_trade rows_with_total) /\
    length (omap V1_row_trade rows_with_total) = 2%nat.
Proof.
  at_report (V1.analyze_csv source_config rows_with_total) ltac:(fun r => exists r).
  split; [vm_compute; reflexivity|]. split; [|vm_compute; reflexivity].
  apply (first_file_counts_every_trade_once source_config rows_with_total).
  vm_compute; reflexivity.
Defined.


End PartitionExamples.

(** ** Dates as text *)

Lemma string_compare_app s1 s2 t1 t2 :
  String.length s1 = String.length s2 ->
  String.compare (s1 ++ t1) (s2 ++ t2)
  = lex (String.compare s1 s2) (String.compare t1 t2).
Proof.
  revert s2. induction s1 as [|c1 s1 IH]; intros [|c2 s2] Hlen; simpl in *; try done.
  destruct (Ascii.compare c1 c2); [|done..]. apply IH. lia.
Qed.

Lemma digit_compare x y :
  (x < 10)%nat -> (y < 10)%nat -> String.compare (digit x) (digit y) = (x ?= y)%nat.
Proof.
  intros Hx Hy.
  do 10 (destruct x as [|x];
         [do 10 (destruct y as [|y]; [reflexivity|]); lia|]).
  lia.
Qed.

Lemma digit_mod n : digit n = digit (n mod 10).
Proof. unfold digit. by rewrite Nat.Div0.mod_mod. Qed.

Lemma lex_div_mod (m a b : nat) :
  (0 < m)%nat ->
  lex (a / m ?= b / m)%nat (a mod m ?= b mod m)%nat = (a ?= b)%nat.
Proof.
  intros Hm.
  pose proof (Nat.div_mod_eq a m) as Ha. pose proof (Nat.div_mod_eq b m) as Hb.
  pose proof (Nat.mod_upper_bound a m) as Ha'. pose proof (Nat.mod_upper_bound b m) as Hb'.
  destruct (Nat.compare_spec (a / m) (b / m)) as [E|E|E]; simpl.
  - rewrite E in Ha.
    destruct (Nat.compare_spec (a mod m) (b mod m));
      symmetry; [apply Nat.compare_eq_iff|apply Nat.compare_lt_iff|apply Nat.compare_gt_iff];
      lia.
  - symmetry. apply Nat.compare_lt_iff. nia.
  - symmetry. apply Nat.compare_gt_iff. nia.
Qed.

Lemma pad2_compare a b :
  (a < 100)%nat -> (b < 100)%nat -> String.compare (pad2 a) (pad2 b) = (a ?= b)%nat.
Proof.
  intros Ha Hb. unfold pad2.
  rewrite string_compare_app by done.
  rewrite (digit_mod a), (digit_mod b).
  assert (a / 10 < 10)%nat by (apply Nat.Div0.div_lt_upper_bound; lia).
  assert (b / 10 < 10)%nat by (apply Nat.Div0.div_lt_upper_bound; lia).
  assert (a mod 10 < 10)%nat by (apply Nat.mod_upper_bound; lia).
  assert (b mod 10 < 10)%nat by (apply Nat.mod_upper_bound; lia).
  rewrite !digit_compare by done.
  apply lex_div_mod. lia.
Qed.

Lemma mod_100 n : (n mod 100 = n mod 10 + 10 * ((n / 10) mod 10))%nat.
Proof. change 100%nat with (10 * 10)%nat. apply Nat.Div0.mod_mul_r. Qed.

Lemma pad2_mod n : pad2 n = pad2 (n mod 100).
Proof.
  unfold pad2. rewrite (digit_mod (n / 10)), (digit_mod (n mod 100 / 10)).
  rewrite (digit_mod n), (digit_mod (n mod 100)).
  assert (Hq : (n mod 100 / 10 = (n / 10) mod 10)%nat).
  { rewrite mod_100, Nat.add_comm, Nat.mul_comm, Nat.div_add_l by lia.
    rewrite (Nat.div_small (n mod 10)) by (apply Nat.mod_upper_bound; lia). lia. }
  assert (Hr : ((n mod 100) mod 10 = n mod 10)%nat).
  { rewrite mod_100, (Nat.mul_comm 10), Nat.Div0.mod_add.
    apply Nat.Div0.mod_mod. }
  by rewrite Hq, Hr, Nat.Div0.mod_mod.
Qed.

Lemma pad2_length n : String.length (pad2 n) = 2%nat.
Proof. done. Qed.

Lemma pad4_length n : String.length (pad4 n) = 4%nat.
Proof. done. Qed.

Lemma pad4_compare a b :
  (a < 100 * 100)%nat -> (b < 100 * 100)%nat -> String.compare (pad4 a) (pad4 b) = (a ?= b)%nat.
Proof.
  intros Ha Hb. unfold pad4.
  rewrite string_compare_app by done.
  rewrite (pad2_mod a), (pad2_mod b).
  assert (a / 100 < 100)%nat by (apply Nat.Div0.div_lt_upper_bound; lia).
  assert (b / 100 < 100)%nat by (apply Nat.Div0.div_lt_upper_bound; lia).
  assert (a mod 100 < 100)%nat by (apply Nat.mod_upper_bound; lia).
  assert (b mod 100 < 100)%nat by (apply Nat.mod_upper_bound; lia).
  rewrite !pad2_compare by done.
  apply lex_div_mod. lia.
Qed.

(** On dates in range the order of the texts [strftime] writes is the order
    of the dates. *)
Lemma strftime_compare a b :
  date_in_range a -> date_in_range b ->
  String.compare (strftime a) (strftime b)
  = lex (year a ?= year b)%nat (lex (month a ?= month b)%nat (day a ?= day b)%nat).
Proof.
  intros (Hy1 & Hm1 & Hd1) (Hy2 & Hm2 & Hd2). unfold strftime.
  rewrite string_compare_app by done. rewrite pad4_compare by done.
  rewrite (string_compare_app "-" "-") by done.
  rewrite string_compare_app by done. rewrite pad2_compare by done.
  rewrite (string_compare_app "-" "-") by done.
  rewrite pad2_compare by done. simpl.
  by destruct (year a ?= year b)%nat.
Qed.

Lemma strftime_le a b :
  date_in_range a -> date_in_range b ->
  dt_le a b -> String.le (strftime a) (strftime b).
Proof.
  intros Ha Hb Hle. apply string_ltb_le. unfold String.ltb.
  rewrite (strftime_compare b a) by done.
  unfold dt_le, dt_ltb, dt_compare in Hle.
  destruct (year b ?= year a)%nat; simpl in *; try done.
  destruct (month b ?= month a)%nat; simpl in *; try done.
  destruct (day b ?= day a)%nat; simpl in *; done.
Qed.

(** ** The lowest balance of the two files *)

Section Blocks.
Context {A : Type} (key : A -> string).

Lemma StronglySorted_weaken_elem (R R' : A -> A -> Prop) l :
  (forall a b, a ∈ l -> b ∈ l -> R a b -> R' a b) ->
  StronglySorted R l -> StronglySorted R' l.
Proof.
  intros HR Hs. induction Hs as [|x l Hl IH Hx]; constructor.
  - apply IH. intros a b Ha Hb. apply HR; by right.
  - rewrite Forall_forall in Hx. apply Forall_forall. intros y Hy.
    apply HR; [left|by right|by apply Hx].
Qed.

Lemma filter_key_none (l : list A) k :
  (forall x, x ∈ l -> key x <> k) -> filter (fun x => key x = k) l = [].
Proof.
  induction l as [|x l IH]; intros Hl; [done|].
  rewrite filter_cons. destruct (decide (key x = k)) as [E|_].
  - by destruct (Hl x); [left|].
  - apply IH. intros y Hy. apply Hl. by right.
Qed.

Lemma filter_key_all (l : list A) k :
  (forall x, x ∈ l -> key x <> k) -> filter (fun x => key x <> k) l = l.
Proof.
  induction l as [|x l IH]; intros Hl; [done|].
  rewrite filter_cons. destruct (decide (key x <> k)) as [_|E].
  - f_equal. apply IH. intros y Hy. apply Hl. by right.
  - destruct E. apply Hl. left.
Qed.

(** In a list ordered by key the elements of the least key stand first. *)
Lemma sorted_split_first (l : list A) k0 :
  StronglySorted (fun a b => String.le (key a) (key b)) l ->
  (forall x, x ∈ l -> String.le k0 (key x)) ->
  l = (filter (fun x => key x = k0) l ++ filter (fun x => key x <> k0) l)%list.
Proof.
  induction 1 as [|x l Hl IH Hx]; intros Hk0; [done|].
  rewrite !filter_cons.
  destruct (decide (key x = k0)) as [E|E].
  - destruct (decide (key x <> k0)); [done|].
    simpl. f_equal. apply IH. intros y Hy. apply Hk0. by right.
  - destruct (decide (key x <> k0)); [|done].
    assert (Hnone : forall y, y ∈ l -> key y <> k0).
    { intros y Hy Ey. rewrite Forall_forall in Hx.
      apply E. apply (anti_symm String.le).
      - rewrite <- Ey. by apply Hx.
      - apply Hk0. left. }
    by rewrite (filter_key_none l k0 Hnone), (filter_key_all l k0 Hnone).
Qed.

(** A list ordered by key is its runs, one key after the other. *)
Lemma sorted_is_runs (ks : list string) (l : list A) :
  StronglySorted String.le ks -> NoDup ks ->
  (forall x, x ∈ l -> key x ∈ ks) ->
  StronglySorted (fun a b => String.le (key a) (key b)) l ->
  flat_map (fun k => filter (fun x => key x = k) l) ks = l.
Proof.
  intros Hks. revert l. induction Hks as [|k0 ks Hks IH Hk0]; intros l Hnd Hin Hl.
  - destruct l as [|x l]; [done|].
    assert (Hx : key x ∈ []) by (apply Hin; left). by apply elem_of_nil in Hx.
  - apply NoDup_cons in Hnd as [Hk0' Hnd]. simpl.
    rewrite Forall_forall in Hk0.
    transitivity (filter (fun x => key x = k0) l
                  ++ filter (fun x => key x <> k0) l)%list.
    2:{ symmetry. apply (sorted_split_first l k0 Hl).
        intros x Hx. apply Hin in Hx. apply elem_of_cons in Hx as [->|Hx]; [done|].
        by apply Hk0. }
    f_equal.
    rewrite <- (IH (filter (fun x => key x <> k0) l)); [| done | |].
    + clear -Hk0'. induction ks as [|k ks IHks]; simpl; [done|].
      apply not_elem_of_cons in Hk0' as [Hne Hk0'].
      rewrite (IHks Hk0'). f_equal.
      rewrite list_filter_filter. apply list_filter_iff.
      intros x. split; [|tauto]. intros ->. done.
    + intros x Hx. apply list_elem_of_filter in Hx as [Hne Hx].
      apply Hin in Hx. apply elem_of_cons in Hx as [?|?]; done.
    + clear -Hl. induction Hl as [|x l Hl IH Hx]; [constructor|].
      rewrite filter_cons. destruct (decide (key x <> k0)); [|done].
      constructor; [done|].
      rewrite Forall_forall in Hx. apply Forall_forall. intros y Hy.
      apply list_elem_of_filter in Hy as [_ Hy]. by apply Hx.
Qed.
End Blocks.

Section LowestBalances.
Context `{PyRuntime}.
Hypothesis strptime_in_range : forall s d, strptime s = Some d -> date_in_range d.

Lemma V2_row_trade_date row t :
  V2_row_trade row = Some t ->
  V2.date_str t = strftime (V2.dt t) /\ date_in_range (V2.dt t).
Proof.
  unfold V2_row_trade, V2.read_row, V2.parse_datetime.
  destruct (is_total (ID row)); [done|].
  destruct (truthy (Close_Time row)) as [s|]; [|done].
  destruct (strptime s) as [dt|] eqn:Hdt; [|done].
  destruct (float_or_0 (Profit row)) as [p|]; simpl; [|done].
  destruct (float_or_0 (Commission row)) as [c|]; simpl; [|done].
  destruct (float_or_0 (Swap row)) as [sw|]; simpl; [|done].
  intros [= <-]. simpl. split; [done|]. by eapply strptime_in_range.
Qed.

(** The trades the second file sorts by close time are ordered by date as
    well. *)
Lemma V2_sorted_by_date rows :
  StronglySorted (fun a b => String.le (V2.date_str a) (V2.date_str b))
                 (V2.sort_trades (omap V2_row_trade rows)).
Proof.
  eapply StronglySorted_weaken_elem;
    [|apply (py_sorted_sorted dt_ltb V2.dt dt_ltb_asym);
      intros a b c; apply dt_le_trans].
  assert (Helem : forall t, t ∈ V2.sort_trades (omap V2_row_trade rows) ->
                    V2.date_str t = strftime (V2.dt t) /\ date_in_range (V2.dt t)).
  { intros t Ht. unfold V2.sort_trades in Ht.
    rewrite (py_sorted_Permutation dt_ltb V2.dt) in Ht.
    apply list_elem_of_omap in Ht as (row & _ & Hrow).
    by eapply V2_row_trade_date. }
  intros a b Ha Hb Hab.
  destruct (Helem a Ha) as [-> Hra]. destruct (Helem b Hb) as [-> Hrb].
  by apply strftime_le.
Qed.

(** The sorted trades are the lists of the days, one day after the
    other. *)
Lemma V2_trades_are_days rows :
  let trades := V2.sort_trades (omap V2_row_trade rows) in
  let tbd := V2.group_by_day ∅ trades in
  flat_map (fun day => default [] (tbd !! day)) (sorted_keys tbd) = trades.
Proof.
  intros trades tbd.
  transitivity (flat_map (fun k => filter (fun t => V2.date_str t = k) trades)
                         (sorted_keys tbd));
    [|apply (sorted_is_runs V2.date_str (sorted_keys tbd) trades)].
  - induction (sorted_keys tbd) as [|day days IH]; cbn [flat_map]; [done|].
    rewrite IH. f_equal. unfold tbd.
    by rewrite V2_group_by_day_lookup, lookup_empty.
  - apply sorted_keys_sorted.
  - apply sorted_keys_NoDup.
  - intros t Ht. apply elem_of_sorted_keys, V2_group_by_day_keys. right.
    apply list_elem_of_fmap. by exists t.
  - apply V2_sorted_by_date.
Qed.

Lemma same_day_pnl_take k l1 l2 :
  Forall2 same_day l1 l2 ->
  (py_sum (take k (map V1.day_pnl l1)) == py_sum (take k (map V2.day_pnl l2)))%Q.
Proof.
  intros Hl. revert k. induction Hl as [|d1 d2 l1 l2 (_ & Hp & _) _ IH]; intros [|k];
    simpl; try reflexivity.
  rewrite !py_sum_cons, Hp, (IH k). reflexivity.
Qed.

Lemma lowest_balance_order cfg rows r1 r2 :
  V1.analysis cfg rows = Ok r1 ->
  V2.analysis cfg rows = Ok r2 ->
  (V2.min_balance r2 <= V1.min_bal r1)%Q.
Proof.
  intros Hrun1 Hrun2.
  pose proof (same_days_of_same_rows cfg rows r1 r2 Hrun1 Hrun2) as Hsame.
  (* the first file's lowest balance is the balance at the end of some day *)
  assert (Hk : exists k,
    (V1.min_bal r1 == ACCOUNT_SIZE cfg + py_sum (take k (map V1.day_pnl (V1.days r1))))%Q).
  { apply V1_analysis_min_bal in Hrun1 as (tbd & cur & Hdays & Hloop).
    eapply V1_max_dd_days_spec in Hloop as (_ & _ & [->|(k & _ & Heq)]); [| |exact Hdays].
    - exists 0%nat. unfold py_sum; simpl. lra.
    - exists k. by rewrite <- fmap_take. }
  destruct Hk as [k Hk]. rewrite Hk, (same_day_pnl_take k _ _ Hsame).
  (* which is a balance the second file goes through *)
  apply V2_analysis_inv in Hrun2 as (ts & Hread & Hrun2).
  apply V2_read_rows_trades in Hread. simpl in Hread. subst ts.
  apply V2_evaluate_inv in Hrun2 as (Hmin & _ & Hdays & _).
  set (trades := V2.sort_trades (omap V2_row_trade rows)) in *.
  set (tbd := V2.group_by_day ∅ trades) in *.
  rewrite (V2_days_pnl _ _ _ _ Hdays), <- fmap_take.
  rewrite <- (py_sum_flat_map
                (fun day => map V2.net_pnl (default [] (tbd !! day)))).
  rewrite <- map_flat_map.
  set (prefix := flat_map (fun day => default [] (tbd !! day)) (take k (sorted_keys tbd))).
  assert (Hprefix : prefix = take (length prefix) trades).
  { pose proof (V2_trades_are_days rows) as Hall. simpl in Hall.
    fold trades tbd in Hall.
    rewrite <- (take_drop k (sorted_keys tbd)), flat_map_app in Hall.
    fold prefix in Hall. rewrite <- Hall. by rewrite take_app_length. }
  rewrite Hmin.
  destruct (V2.max_dd_trades trades _ _) as [cur mn] eqn:Hloop.
  apply max_dd_trades_spec in Hloop as (Hle & Hall & _). simpl.
  destruct (length prefix) as [|n] eqn:Hn.
  - destruct prefix; [|done]. unfold py_sum; simpl. lra.
  - rewrite Hprefix. apply Hall.
    split; [lia|]. rewrite <- Hn, Hprefix, length_take. lia.
Qed.
End LowestBalances.


(** The runtime of the examples returns dates in range. *)
Lemma Text_digit_val_lt c d : Text.digit_val c = Some d -> (d < 10)%nat.
Proof.
  unfold Text.digit_val.
  destruct (48 <=? nat_of_ascii c)%nat eqn:E1; [|done].
  destruct (nat_of_ascii c <=? 57)%nat eqn:E2; [|done].
  simpl. intros [= <-].
  apply Nat.leb_le in E1. apply Nat.leb_le in E2. lia.
Qed.

Lemma Text_number_4 c1 c2 c3 c4 n :
  Text.number [c1; c2; c3; c4] = Some n -> (n < 100 * 100)%nat.
Proof.
  unfold Text.number, Text.digits_val.
  destruct (Text.digit_val c1) as [d1|] eqn:E1; [|done].
  destruct (Text.digit_val c2) as [d2|] eqn:E2; [|done].
  destruct (Text.digit_val c3) as [d3|] eqn:E3; [|done].
  destruct (Text.digit_val c4) as [d4|] eqn:E4; [|done].
  apply Text_digit_val_lt in E1, E2, E3, E4. intros [= <-]. lia.
Qed.

Lemma Text_number_2 c1 c2 n :
  Text.number [c1; c2] = Some n -> (n < 100)%nat.
Proof.
  unfold Text.number, Text.digits_val.
  destruct (Text.digit_val c1) as [d1|] eqn:E1; [|done].
  destruct (Text.digit_val c2) as [d2|] eqn:E2; [|done].
  apply Text_digit_val_lt in E1, E2. intros [= <-]. lia.
Qed.

Lemma Text_strptime_in_range s d : Text.strptime s = Some d -> date_in_range d.
Proof.
  unfold Text.strptime.
  destruct (list_ascii_of_string s)
    as [|d1 [|d2 [|a [|m1 [|m2 [|b [|y1 [|y2 [|y3 [|y4 [|c [|h1 [|h2 [|e
        [|n1 [|n2 [|f [|s1 [|s2 [|? ?]]]]]]]]]]]]]]]]]]]]; try done.
  destruct (_ && _); [|done].
  destruct (Text.number [d1; d2]) as [dd|] eqn:Ed; [|done].
  destruct (Text.number [m1; m2]) as [mm|] eqn:Em; [|done].
  destruct (Text.number [y1; y2; y3; y4]) as [yy|] eqn:Ey; [|done].
  destruct (Text.number [h1; h2]); [|done].
  destruct (Text.number [n1; n2]); [|done].
  destruct (Text.number [s1; s2]); [|done].
  destruct (Text.valid _); [|done]. intros [= <-]. unfold date_in_range; simpl.
  apply Text_number_4 in Ey. apply Text_number_2 in Ed, Em. done.
Qed.

Section LowestBalanceExamples.
Local Existing Instance export_runtime.

End LowestBalanceExamples.

(** ** The order of the rows *)

Section RowOrder.
Context `{PyRuntime}.

(** Whether a row raises does not depend on the rows read before it. *)
Lemma V2_read_row_acc acc row :
  V2.read_row acc row = (ts <- V2.read_row [] row ;; Ok (acc ++ ts)%list).
Proof.
  unfold V2.read_row.
  destruct (is_total (ID row)); [simpl; by rewrite app_nil_r|].
  destruct (truthy (Close_Time row)) as [s|]; [|simpl; by rewrite app_nil_r].
  destruct (V2.parse_datetime s) as [dt|]; [|simpl; by rewrite app_nil_r].
  destruct (float_or_0 (Profit row)) as [p|]; simpl; [|done].
  destruct (float_or_0 (Commission row)) as [c|]; simpl; [|done].
  destruct (float_or_0 (Swap row)) as [sw|]; simpl; done.
Qed.

Lemma V2_read_rows_Ok acc rows :
  (exists ts, V2.read_rows acc rows = Ok ts) <->
  Forall (fun row => exists ts, V2.read_row [] row = Ok ts) rows.
Proof.
  revert acc. induction rows as [|row rows IH]; intros acc; simpl.
  - split; [constructor|eauto].
  - rewrite Forall_cons, V2_read_row_acc.
    destruct (V2.read_row [] row) as [ts|e]; simpl.
    + rewrite IH. split; [eauto|tauto].
    + split; [intros [? [=]]|intros [[? [=]] _]].
Qed.

Lemma same_rows_same_days cfg rows1 rows2 r1 r2 :
  rows1 ≡ₚ rows2 ->
  V2.analysis cfg rows1 = Ok r1 -> V2.analysis cfg rows2 = Ok r2 ->
  Forall2 same_result (V2.days r1) (V2.days r2).
Proof.
  intros Hperm Hrun1 Hrun2.
  apply V2_analysis_inv in Hrun1 as (ts1 & Hread1 & Hrun1).
  apply V2_analysis_inv in Hrun2 as (ts2 & Hread2 & Hrun2).
  apply V2_read_rows_trades in Hread1, Hread2. simpl in *. subst ts1 ts2.
  apply V2_evaluate_inv in Hrun1 as (_ & _ & Hdays1 & _).
  apply V2_evaluate_inv in Hrun2 as (_ & _ & Hdays2 & _).
  set (trades1 := V2.sort_trades (omap V2_row_trade rows1)) in *.
  set (trades2 := V2.sort_trades (omap V2_row_trade rows2)) in *.
  assert (Htrades : trades1 ≡ₚ trades2).
  { unfold trades1, trades2, V2.sort_trades.
    rewrite !py_sorted_Permutation. by apply omap_Permutation. }
  set (tbd1 := V2.group_by_day ∅ trades1) in *.
  set (tbd2 := V2.group_by_day ∅ trades2) in *.
  assert (Hkeys : sorted_keys tbd1 = sorted_keys tbd2).
  { apply (StronglySorted_unique String.le); try apply sorted_keys_sorted.
    apply NoDup_Permutation; try apply sorted_keys_NoDup.
    intros day. rewrite !elem_of_sorted_keys. unfold tbd1, tbd2.
    rewrite !V2_group_by_day_keys.
    assert (Hd : map V2.date_str trades1 ≡ₚ map V2.date_str trades2)
      by by apply Permutation_map.
    by rewrite Hd. }
  rewrite Hkeys in Hdays1.
  eapply Forall2_zip_right; [|exact Hdays1|exact Hdays2].
  intros day d1 d2 (l1 & Hl1 & Hd1 & Hp1 & Hs1 & Hb1) (l2 & Hl2 & Hd2 & Hp2 & Hs2 & Hb2).
  assert (Hpnl : (V2.day_pnl d1 == V2.day_pnl d2)%Q).
  { rewrite Hp1, Hp2.
    pose proof (V2_group_by_day_lookup ∅ trades1 day) as E1. fold tbd1 in E1.
    rewrite Hl1, lookup_empty in E1. simpl in E1. subst l1.
    pose proof (V2_group_by_day_lookup ∅ trades2 day) as E2. fold tbd2 in E2.
    rewrite Hl2, lookup_empty in E2. simpl in E2. subst l2.
    apply py_sum_Permutation, Permutation_map. by apply filter_Permutation. }
  assert (Hloss : (V2.day_loss d1 == V2.day_loss d2)%Q).
  { rewrite Hs1, Hs2, (Qltb_Qeq _ (V2.day_pnl d2) 0 0 Hpnl) by reflexivity.
    destruct (Qltb (V2.day_pnl d2) 0); [by rewrite Hpnl|reflexivity]. }
  split; [congruence|]. split; [done|]. split; [done|].
  rewrite Hb1, Hb2. apply Qltb_Qeq; [reflexivity|done].
Qed.
End RowOrder.


Section RowOrderExamples.
Local Existing Instance export_runtime.

Lemma shuffled_rows_Permutation : two_day_rows ≡ₚ shuffled_rows.
Proof.
  unfold two_day_rows, shuffled_rows.
  apply NoDup_Permutation.
  - repeat (apply NoDup_cons; split; [rewrite ?elem_of_cons, elem_of_nil; intros H0;
      repeat destruct H0 as [H0|H0]; try discriminate H0; done|]).
    apply NoDup_nil_2.
  - repeat (apply NoDup_cons; split; [rewrite ?elem_of_cons, elem_of_nil; intros H0;
      repeat destruct H0 as [H0|H0]; try discriminate H0; done|]).
    apply NoDup_nil_2.
  - intros x. rewrite !elem_of_cons, !elem_of_nil. tauto.
Qed.

End RowOrderExamples.
